(** * AI Resume Analyzer backend (backend/main.py): a shallow embedding

    The service accepts a resume file and a job description, extracts the
    text of the file, asks Gemini for an analysis and hands the parsed JSON
    answer back.  This development embeds the request handler
    [analyze_resume] and its helpers as Rocq functions and proves what
    they do.

    - Python [str] values are Rocq [string]s.  The text methods the code
      calls ([lower], [strip], [startswith], [split], [join]) are defined
      in [PyStr]; they are exact for text in ASCII, where [len] counts
      characters.
    - A function that prints, reads the upload or calls a library returns
      the list of the events it performed together with its result or the
      exception it raised (type [M]).
    - The environment variable and the libraries the code calls (PyPDF2,
      python-docx, the Gemini client, [json.loads]) are the variables of
      the section [Service]: what is proved there holds whatever they
      return.
    - [Json.loads] is a reference decoder for [json.loads], after the
      decoder of the [json] package of CPython.  It runs the handler on
      sample requests, and the statements on JSON texts are about it.

    The file has the definitions first (text, JSON, effects, the result
    shape of the specification, the service), then the lemmas on texts and
    on the decoder, the properties of the service, and the service on
    sample requests. *)

From Stdlib Require Import String Ascii List ZArith Lia Bool Arith DecimalString.
Import ListNotations.
Local Open Scope string_scope.
Set Warnings "-register-all".

(** ** Python text operations *)

Module PyStr.

(** The line feed, ["\n"] in the source. *)
Definition LF : ascii := ascii_of_nat 10.
Definition nl : string := String LF "".

(** The double quote, written through its code so that no literal has to
    escape it. *)
Definition DQ : ascii := ascii_of_nat 34.
Definition dq : string := String DQ "".

(** [c.isspace()] for a character of the ASCII range: TAB, LF, VT, FF,
    CR, the four separators FS, GS, RS, US and the space.  The whitespace
    characters of Python beyond ASCII are listed in [wide_spaces] below;
    [strip] does not trim them. *)
Definition isspace (c : ascii) : bool :=
  let n := nat_of_ascii c in
  (((9 <=? n) && (n <=? 13)) || ((28 <=? n) && (n <=? 32)))%nat.

(** [c.lower()]: the letters A to Z move to a to z. *)
Definition lower_char (c : ascii) : ascii :=
  let n := nat_of_ascii c in
  if ((65 <=? n) && (n <=? 90))%nat then ascii_of_nat (n + 32) else c.

(** [s.lower()] *)
Fixpoint lower (s : string) : string :=
  match s with
  | EmptyString => EmptyString
  | String c s' => String (lower_char c) (lower s')
  end.

(** [s.lstrip()] *)
Fixpoint lstrip (s : string) : string :=
  match s with
  | EmptyString => EmptyString
  | String c s' => if isspace c then lstrip s' else s
  end.

(** [s.rstrip()] *)
Fixpoint rstrip (s : string) : string :=
  match s with
  | EmptyString => EmptyString
  | String c s' =>
      match rstrip s' with
      | EmptyString => if isspace c then EmptyString else String c EmptyString
      | r => String c r
      end
  end.

(** [s.strip()] *)
Definition strip (s : string) : string := lstrip (rstrip s).

(** [s.startswith(p)] *)
Fixpoint startswith (p s : string) : bool :=
  match p, s with
  | EmptyString, _ => true
  | String a p', String b s' => Ascii.eqb a b && startswith p' s'
  | String _ _, EmptyString => false
  end.

(** [s.split(sep)] for a separator of one character: the pieces between
    the occurrences of [sep]; the result is never empty. *)
Fixpoint split (sep : ascii) (s : string) : list string :=
  match s with
  | EmptyString => [EmptyString]
  | String c s' =>
      if Ascii.eqb c sep then EmptyString :: split sep s'
      else match split sep s' with
           | h :: t => String c h :: t
           | [] => [String c EmptyString]
           end
  end.

(** [sep.join(pieces)] *)
Fixpoint join (sep : string) (pieces : list string) : string :=
  match pieces with
  | [] => EmptyString
  | [p] => p
  | p :: rest => p ++ sep ++ join sep rest
  end.

(** [l[i]] and [l[start:stop]] with Python's negative indices: an index
    below zero counts from the end, a slice bound is clamped to the list. *)
Definition clamp {A} (l : list A) (i : Z) : nat :=
  let n := Z.of_nat (List.length l) in
  Z.to_nat (Z.min n (Z.max 0 (if (i <? 0)%Z then (n + i)%Z else i))).

Definition slice {A} (l : list A) (start stop : Z) : list A :=
  firstn (clamp l stop - clamp l start) (skipn (clamp l start) l).

Definition index {A} (l : list A) (i : Z) : option A :=
  let n := Z.of_nat (List.length l) in
  let j := if (i <? 0)%Z then (n + i)%Z else i in
  if (j <? 0)%Z then None else nth_error l (Z.to_nat j).

(** [needle in s] *)
Fixpoint contains (needle s : string) : bool :=
  startswith needle s ||
  match s with
  | EmptyString => false
  | String _ s' => contains needle s'
  end.

(** [len(s)], the number of characters of [s].  A text is held as its
    UTF-8 bytes: a character is a byte that is no continuation byte
    (binary 10xxxxxx, 128 to 191), with the continuation bytes that follow
    it. *)
Definition continuation (c : ascii) : bool :=
  let n := nat_of_ascii c in ((128 <=? n) && (n <=? 191))%nat.

Fixpoint characters (s : string) : nat :=
  match s with
  | EmptyString => O
  | String c s' => if continuation c then characters s' else S (characters s')
  end.

Definition len (s : string) : Z := Z.of_nat (characters s).

(** [c in s] for a character [c] *)
Fixpoint has_char (c : ascii) (s : string) : bool :=
  match s with
  | EmptyString => false
  | String a s' => Ascii.eqb a c || has_char c s'
  end.

End PyStr.

Import PyStr.

(** ** JSON values and a reference decoder for [json.loads] *)

Module Json.

(** What [json.loads] returns: [None], a [bool], an [int], a [float], a
    [str], a [list] or a [dict].  A float is kept as the literal that was
    handed to [float()]; a dict keeps its keys in insertion order, each
    once. *)
Inductive value : Type :=
| VNone
| VBool (b : bool)
| VInt (n : Z)
| VFloat (literal : string)
| VStr (s : string)
| VList (items : list value)
| VDict (pairs : list (string * value)).

(** The exceptions a library call can end with, as far as the handlers of
    the service tell them apart: [json.JSONDecodeError] (message, document
    and position) and any other exception, known by its message. *)
Inductive exn : Type :=
| JSONDecodeError (msg doc : string) (pos : nat)
| OtherException (text : string).

(** *** [str(e)] *)

Definition decimal (n : nat) : string :=
  DecimalString.NilZero.string_of_uint (Nat.to_uint n).

(** Line and column of position [pos] in [doc], as [JSONDecodeError]
    computes them: the line is one more than the line feeds before [pos],
    the column counts from the last of them. *)
Fixpoint linecol (doc : string) (pos line col : nat) : nat * nat :=
  match pos, doc with
  | O, _ | _, EmptyString => (line, col)
  | S pos', String c doc' =>
      if Ascii.eqb c LF then linecol doc' pos' (S line) 1
      else linecol doc' pos' line (S col)
  end.

Definition str (e : exn) : string :=
  match e with
  | JSONDecodeError msg doc pos =>
      let '(line, col) := linecol doc pos 1 1 in
      msg ++ ": line " ++ decimal line ++ " column " ++ decimal col
          ++ " (char " ++ decimal pos ++ ")"
  | OtherException text => text
  end.

(** *** Characters *)

Definition code (c : ascii) : N := N_of_ascii c.
Definition chr (n : N) : ascii := ascii_of_N n.

(** JSON whitespace: space, TAB, LF, CR. *)
Definition is_ws (c : ascii) : bool :=
  let n := code c in
  (n =? 32)%N || (n =? 9)%N || (n =? 10)%N || (n =? 13)%N.

Definition is_digit (c : ascii) : bool :=
  let n := code c in (48 <=? n)%N && (n <=? 57)%N.

Definition is_digit19 (c : ascii) : bool :=
  let n := code c in (49 <=? n)%N && (n <=? 57)%N.

Definition hex_digit (c : ascii) : option N :=
  let n := code c in
  if (48 <=? n)%N && (n <=? 57)%N then Some (n - 48)%N
  else if (65 <=? n)%N && (n <=? 70)%N then Some (n - 55)%N
  else if (97 <=? n)%N && (n <=? 102)%N then Some (n - 87)%N
  else None.

(** The text of a code point, in UTF-8. *)
Definition utf8 (u : N) : list ascii :=
  if (u <? 128)%N then [chr u]
  else if (u <? 2048)%N then [chr (192 + u / 64); chr (128 + u mod 64)]
  else if (u <? 65536)%N then
    [chr (224 + u / 4096); chr (128 + (u / 64) mod 64); chr (128 + u mod 64)]
  else
    [chr (240 + u / 262144); chr (128 + (u / 4096) mod 64);
     chr (128 + (u / 64) mod 64); chr (128 + u mod 64)].

Definition is_high (u : N) : bool := (55296 <=? u)%N && (u <=? 56319)%N.
Definition is_low (u : N) : bool := (56320 <=? u)%N && (u <=? 57343)%N.
Definition pair_up (hi lo : N) : N :=
  (65536 + ((hi - 55296) * 1024 + (lo - 56320)))%N.

Fixpoint string_of (l : list ascii) : string :=
  match l with
  | [] => EmptyString
  | c :: l' => String c (string_of l')
  end.

(** [int(text)] for an optional minus sign followed by digits. *)
Fixpoint digits_value (s : string) (acc : Z) : Z :=
  match s with
  | EmptyString => acc
  | String c s' => digits_value s' (10 * acc + Z.of_N (code c - 48))
  end.

Definition int_of (text : string) : Z :=
  match text with
  | String "-" s => (- digits_value s 0)%Z
  | _ => digits_value text 0
  end.

(** [dict(pairs)]: a later pair with a key already present replaces the
    value and keeps the key's place. *)
Fixpoint dict_set (k : string) (v : value) (d : list (string * value))
  : list (string * value) :=
  match d with
  | [] => [(k, v)]
  | (k', v') :: d' =>
      if String.eqb k' k then (k, v) :: d' else (k', v') :: dict_set k v d'
  end.

Definition dict (pairs : list (string * value)) : list (string * value) :=
  fold_left (fun d kv => dict_set (fst kv) (snd kv) d) pairs [].

(** [d.get(k)] *)
Fixpoint get (k : string) (d : list (string * value)) : option value :=
  match d with
  | [] => None
  | (k', v) :: d' => if String.eqb k' k then Some v else get k d'
  end.

(** *** The decoder

    [json.loads] reads its document once, left to right.  The decoder is
    written as the machine that the scanner of the [json] package runs:
    a mode (what is being read), the stack of the containers that are
    open, and the position in the document.  A mode that is inside a
    string or a literal counts the characters read since it began, which
    gives the position an error message names.  The grammar is the one
    [json.loads] accepts by default (with [NaN], [Infinity] and
    [-Infinity]); the messages are those of [JSONDecodeError].  The nesting
    of a document is not bounded: the decoder has no recursion limit. *)

(** An open container: an array with the items read so far (last first),
    an object waiting for a key, or an object reading the value of [key]. *)
Inductive frame : Type :=
| FArr (items : list value)
| FObj (pairs : list (string * value))
| FKey (pairs : list (string * value)) (key : string).

(** How far a number has been read.  The scanner matches an integer (an
    optional minus sign, then 0 or a digit from 1 to 9 followed by digits),
    an optional fraction (a point and at least one digit) and an optional
    exponent (e or E, an optional sign and at least one digit); a group
    that does not complete is left unread. *)
Inductive numstate : Type :=
| NMinus      (* after the sign *)
| NZero       (* the integer is 0 *)
| NInt        (* in the digits of the integer *)
| NDot        (* after a point, no digit yet *)
| NFrac       (* in the digits of the fraction *)
| NE          (* after e or E *)
| NESign      (* after the sign of the exponent *)
| NExp.       (* in the digits of the exponent *)

(** The words the scanner knows, with the values they stand for. *)
Inductive word : Type := WNull | WTrue | WFalse | WNaN | WInfinity | WMinusInfinity.

Definition spelling (w : word) : string :=
  match w with
  | WNull => "null"
  | WTrue => "true"
  | WFalse => "false"
  | WNaN => "NaN"
  | WInfinity => "Infinity"
  | WMinusInfinity => "-Infinity"
  end.

Definition meaning (w : word) : value :=
  match w with
  | WNull => VNone
  | WTrue => VBool true
  | WFalse => VBool false
  | WNaN => VFloat "NaN"
  | WInfinity => VFloat "Infinity"
  | WMinusInfinity => VFloat "-Infinity"
  end.

Inductive mode : Type :=
| Value                       (* whitespace, then a value *)
| ArrStart                    (* after an opening bracket *)
| ObjStart                    (* after an opening brace *)
| ObjKey                      (* after a comma in an object *)
| Colon                       (* after a key *)
| After (v : value)           (* after a value *)
| Str (seen : nat) (acc : list ascii) (hi : option N)
| Esc (seen : nat) (acc : list ascii) (hi : option N)
| Uni (seen : nat) (acc : list ascii) (hi : option N) (digits : list N)
| Num (st : numstate) (int frac exp pending : string)
| Lit (w : word) (seen : nat).   (* [seen] characters of [w] are read *)

(** The characters of a string read so far are kept last first. *)
Definition text_of (acc : list ascii) : string := string_of (rev acc).

(** A high surrogate that found no partner stands for itself. *)
Definition flush (acc : list ascii) (hi : option N) : list ascii :=
  match hi with
  | Some h => rev (utf8 h) ++ acc
  | None => acc
  end.

Definition emit (acc : list ascii) (u : N) : list ascii := rev (utf8 u) ++ acc.

(** The value of a number whose groups are [int], [frac] and [exp]. *)
Definition number (int frac exp : string) : value :=
  match frac, exp with
  | EmptyString, EmptyString => VInt (int_of int)
  | _, _ => VFloat (int ++ frac ++ exp)
  end.

(** What one character leads to: the next mode and stack, or an error, given
    by its message and by how many characters before the current one it
    lies. *)
Definition next : Type := (string * nat) + (mode * list frame).

Definition go (m : mode) (stack : list frame) : next := inr (m, stack).
Definition fail (msg : string) (back : nat) : next := inl (msg, back).

(** A value starts at character [c]. *)
Definition start_value (stack : list frame) (c : ascii) : next :=
  if is_ws c then go Value stack
  else if Ascii.eqb c DQ then go (Str 1 [] None) stack
  else if Ascii.eqb c "{" then go ObjStart (FObj [] :: stack)
  else if Ascii.eqb c "[" then go ArrStart (FArr [] :: stack)
  else if Ascii.eqb c "n" then go (Lit WNull 1) stack
  else if Ascii.eqb c "t" then go (Lit WTrue 1) stack
  else if Ascii.eqb c "f" then go (Lit WFalse 1) stack
  else if Ascii.eqb c "-" then go (Num NMinus "-" "" "" "") stack
  else if Ascii.eqb c "0" then go (Num NZero "0" "" "" "") stack
  else if is_digit19 c then go (Num NInt (String c "") "" "" "") stack
  else if Ascii.eqb c "N" then go (Lit WNaN 1) stack
  else if Ascii.eqb c "I" then go (Lit WInfinity 1) stack
  else fail "Expecting value" 0.

(** Character [c], [back] characters before the current one, follows the
    value [v]. *)
Definition after_value (stack : list frame) (back : nat) (v : value) (c : ascii)
  : next :=
  if is_ws c then go (After v) stack
  else
    match stack with
    | [] => fail "Extra data" back
    | FArr items :: up =>
        if Ascii.eqb c "," then go Value (FArr (v :: items) :: up)
        else if Ascii.eqb c "]" then go (After (VList (rev (v :: items)))) up
        else fail "Expecting ',' delimiter" back
    | FKey pairs key :: up =>
        if Ascii.eqb c "," then go ObjKey (FObj ((key, v) :: pairs) :: up)
        else if Ascii.eqb c "}" then
          go (After (VDict (dict (rev ((key, v) :: pairs))))) up
        else fail "Expecting ',' delimiter" back
    | FObj _ :: _ => fail "Expecting ',' delimiter" back
    end.

(** A string ends: it is a key when an object waits for one, a value
    otherwise. *)
Definition end_string (stack : list frame) (s : string) : next :=
  match stack with
  | FObj pairs :: up => go Colon (FKey pairs s :: up)
  | _ => go (After (VStr s)) stack
  end.

(** The character an escape stands for. *)
Definition escape (c : ascii) : option ascii :=
  if Ascii.eqb c DQ then Some DQ
  else if Ascii.eqb c "\" then Some "\"%char
  else if Ascii.eqb c "/" then Some "/"%char
  else if Ascii.eqb c "b" then Some (ascii_of_nat 8)
  else if Ascii.eqb c "f" then Some (ascii_of_nat 12)
  else if Ascii.eqb c "n" then Some (ascii_of_nat 10)
  else if Ascii.eqb c "r" then Some (ascii_of_nat 13)
  else if Ascii.eqb c "t" then Some (ascii_of_nat 9)
  else None.

(** A character inside a string whose pending surrogate, if any, has been
    written out. *)
Definition in_string (stack : list frame) (seen : nat)
    (acc : list ascii) (c : ascii) : next :=
  if Ascii.eqb c DQ then end_string stack (text_of acc)
  else if Ascii.eqb c "\" then go (Esc (S seen) acc None) stack
  else if (code c <? 32)%N then fail "Invalid control character at" 0
  else go (Str (S seen) (c :: acc) None) stack.

(** The four digits of a [\u] escape have been read: [u] is its value. *)
Definition end_escape (seen : nat) (acc : list ascii) (hi : option N) (u : N)
  : mode :=
  match hi with
  | Some h =>
      if is_low u then Str seen (emit acc (pair_up h u)) None
      else if is_high u then Str seen (emit acc h) (Some u)
      else Str seen (emit (emit acc h) u) None
  | None =>
      if is_high u then Str seen acc (Some u)
      else Str seen (emit acc u) None
  end.

Definition hex_value (digits : list N) : N :=
  fold_left (fun a d => (16 * a + d)%N) digits 0%N.

(** The error when a value is followed, [back] characters before the
    current one, by a point or by the letter of an exponent. *)
Definition unread (stack : list frame) (back : nat) : string * nat :=
  match stack with
  | [] => ("Extra data", back)
  | _ => ("Expecting ',' delimiter", back)
  end.

(** A number stops before character [c]; when a group was begun and not
    completed ([pending]), it stopped before that group. *)
Definition end_number (stack : list frame)
    (int frac exp pending : string) (c : ascii) : next :=
  match pending with
  | EmptyString => after_value stack 0 (number int frac exp) c
  | _ => inl (unread stack (String.length pending))
  end.

Definition in_number (stack : list frame) (st : numstate)
    (int frac exp pending : string) (c : ascii) : next :=
  let one := String c "" in
  match st with
  | NMinus =>
      if Ascii.eqb c "0" then go (Num NZero (int ++ one) "" "" "") stack
      else if is_digit19 c then go (Num NInt (int ++ one) "" "" "") stack
      else if Ascii.eqb c "I" then go (Lit WMinusInfinity 2) stack
      else fail "Expecting value" 1
  | NZero | NInt =>
      if is_digit c && match st with NInt => true | _ => false end
      then go (Num NInt (int ++ one) "" "" "") stack
      else if Ascii.eqb c "." then go (Num NDot int "" "" ".") stack
      else if Ascii.eqb c "e" || Ascii.eqb c "E" then go (Num NE int "" "" one) stack
      else end_number stack int frac exp pending c
  | NDot =>
      if is_digit c then go (Num NFrac int (pending ++ one) "" "") stack
      else end_number stack int frac exp pending c
  | NFrac =>
      if is_digit c then go (Num NFrac int (frac ++ one) "" "") stack
      else if Ascii.eqb c "e" || Ascii.eqb c "E" then go (Num NE int frac "" one) stack
      else end_number stack int frac exp pending c
  | NE =>
      if is_digit c then go (Num NExp int frac (pending ++ one) "") stack
      else if Ascii.eqb c "+" || Ascii.eqb c "-" then
        go (Num NESign int frac "" (pending ++ one)) stack
      else end_number stack int frac exp pending c
  | NESign =>
      if is_digit c then go (Num NExp int frac (pending ++ one) "") stack
      else end_number stack int frac exp pending c
  | NExp =>
      if is_digit c then go (Num NExp int frac (exp ++ one) "") stack
      else end_number stack int frac exp pending c
  end.

(** One character. *)
Definition step (m : mode) (stack : list frame) (c : ascii) : next :=
  match m with
  | Value => start_value stack c
  | ArrStart =>
      if is_ws c then go ArrStart stack
      else if Ascii.eqb c "]" then
        match stack with
        | FArr _ :: up => go (After (VList [])) up
        | _ => fail "Expecting value" 0
        end
      else start_value stack c
  | ObjStart =>
      if is_ws c then go ObjStart stack
      else if Ascii.eqb c "}" then
        match stack with
        | FObj _ :: up => go (After (VDict [])) up
        | _ => fail "Expecting value" 0
        end
      else if Ascii.eqb c DQ then go (Str 1 [] None) stack
      else fail "Expecting property name enclosed in double quotes" 0
  | ObjKey =>
      if is_ws c then go ObjKey stack
      else if Ascii.eqb c DQ then go (Str 1 [] None) stack
      else fail "Expecting property name enclosed in double quotes" 0
  | Colon =>
      if is_ws c then go Colon stack
      else if Ascii.eqb c ":" then go Value stack
      else fail "Expecting ':' delimiter" 0
  | After v => after_value stack 0 v c
  | Str seen acc hi =>
      match hi with
      | Some h =>
          if Ascii.eqb c "\" then go (Esc (S seen) acc hi) stack
          else in_string stack seen (flush acc hi) c
      | None => in_string stack seen acc c
      end
  | Esc seen acc hi =>
      if Ascii.eqb c "u" then go (Uni (S seen) acc hi []) stack
      else
        match escape c with
        | Some e => go (Str (S seen) (e :: flush acc hi) None) stack
        | None => fail "Invalid \escape" 1
        end
  | Uni seen acc hi digits =>
      match hex_digit c with
      | Some d =>
          let digits := (digits ++ [d])%list in
          if (List.length digits =? 4)%nat
          then go (end_escape (S seen) acc hi (hex_value digits)) stack
          else go (Uni (S seen) acc hi digits) stack
      | None => fail "Invalid \uXXXX escape" (S (List.length digits))
      end
  | Num st int frac exp pending => in_number stack st int frac exp pending c
  | Lit w seen =>
      match String.get seen (spelling w) with
      | Some r =>
          if Ascii.eqb c r then
            if (S seen =? String.length (spelling w))%nat
            then go (After (meaning w)) stack
            else go (Lit w (S seen)) stack
          else fail "Expecting value" seen
      | None => after_value stack 0 (meaning w) c
      end
  end.

(** The machine in mode [m] at position [pos] reads [s]: where it
    stands at the end, or the error and its position. *)
Fixpoint run (m : mode) (stack : list frame) (pos : nat) (s : string)
  : (string * nat) + (mode * list frame * nat) :=
  match s with
  | EmptyString => inr (m, stack, pos)
  | String c s' =>
      match step m stack c with
      | inl (msg, back) => inl (msg, pos - back)
      | inr (m', stack') => run m' stack' (S pos) s'
      end
  end.

(** The document ends in mode [m]: the value read, or the message and
    position of the error. *)
Definition finish (m : mode) (stack : list frame) (pos : nat)
  : (string * nat) + value :=
  let closed (v : value) :=
    match stack with
    | [] => inr v
    | _ => inl ("Expecting ',' delimiter", pos)
    end in
  match m with
  | Value | ArrStart => inl ("Expecting value", pos)
  | ObjStart | ObjKey =>
      inl ("Expecting property name enclosed in double quotes", pos)
  | Colon => inl ("Expecting ':' delimiter", pos)
  | After v => closed v
  | Str seen _ _ | Esc seen _ _ =>
      inl ("Unterminated string starting at", pos - seen)
  | Uni _ _ _ digits => inl ("Invalid \uXXXX escape", pos - S (List.length digits))
  | Num NMinus _ _ _ _ => inl ("Expecting value", pos - 1)
  | Num _ int frac exp EmptyString => closed (number int frac exp)
  | Num _ int frac exp pending => inl (unread stack (pos - String.length pending))
  | Lit w seen =>
      if (String.length (spelling w) <=? seen)%nat then closed (meaning w)
      else inl ("Expecting value", pos - seen)
  end.

(** The machine started in mode [m] reads [s] to its end. *)
Definition decode (m : mode) (stack : list frame) (pos : nat) (s : string)
  : (string * nat) + value :=
  match run m stack pos s with
  | inl e => inl e
  | inr (m', stack', pos') => finish m' stack' pos'
  end.

(** [json.loads(doc)] *)
Definition loads (doc : string) : exn + value :=
  match decode Value [] 0 doc with
  | inl (msg, p) => inl (JSONDecodeError msg doc p)
  | inr v => inr v
  end.

End Json.

Import Json.

(** ** Effects and exceptions *)

Definition bytes : Type := list Byte.byte.

(** What a run of the service does to the world, in order. *)
Inductive event : Type :=
| Print (line : string)              (* print(line) *)
| ReadFile (name : string)           (* await resumeFile.read() *)
| PdfReader (content : bytes)        (* PyPDF2 opens the bytes and reads the pages *)
| Document (content : bytes)         (* python-docx opens the bytes and reads the paragraphs *)
| GenerateContent (model prompt : string).  (* the call to the Gemini service *)

(** What can be raised: FastAPI's [HTTPException] or an exception of a
    library. *)
Inductive exc : Type :=
| HTTPException (status_code : Z) (detail : string)
| Raised (e : exn).

(** A computation: the events it performed and how it ended. *)
Definition M (A : Type) : Type := list event * (exc + A).

Definition ret {A} (a : A) : M A := ([], inr a).
Definition raise {A} (e : exc) : M A := ([], inl e).
Definition tell (ev : event) : M unit := ([ev], inr tt).
Definition print (line : string) : M unit := tell (Print line).

Definition bind {A B} (c : M A) (k : A -> M B) : M B :=
  match c with
  | (t, inl e) => (t, inl e)
  | (t, inr a) => let '(t', r) := k a in ((t ++ t')%list, r)
  end.

Notation "x <- c ;; k" := (bind c (fun x => k))
  (at level 61, c at next level, right associativity).
Notation "c ;; k" := (bind c (fun _ => k))
  (at level 61, right associativity).

(** [try: c except ... as e: h e] *)
Definition try_except {A} (c : M A) (h : exc -> M A) : M A :=
  match c with
  | (t, inl e) => let '(t', r) := h e in ((t ++ t')%list, r)
  | (t, inr a) => (t, inr a)
  end.

(** A call that raises the exception whose [str] is given, or returns. *)
Definition result {A} (r : string + A) : M A :=
  match r with
  | inl e => raise (Raised (OtherException e))
  | inr a => ret a
  end.

Definition trace {A} (c : M A) : list event := fst c.
Definition outcome {A} (c : M A) : exc + A := snd c.

(** Truth value of a [str] and of an [Optional[str]]. *)
Definition truthy (s : string) : bool := negb (String.eqb s "").
Definition truthy_opt (o : option string) : bool :=
  match o with
  | Some s => truthy s
  | None => false
  end.

(** [x in l] for a list of strings *)
Definition mem (x : string) (l : list string) : bool :=
  existsb (String.eqb x) l.

(** [l[-1]] of a list that [split] returned (never empty, so no
    [IndexError]). *)
Definition last_item (l : list string) : string :=
  match index l (-1) with
  | Some x => x
  | None => ""
  end.

(** The opening of a fenced block. *)
Definition fence : string := "```".

(** [filename.lower().split('.')[-1]], the expression of lines 119 and
    329. *)
Definition file_extension (filename : string) : string :=
  last_item (split "." (lower filename)).

(** The events that read the upload, open it with a reader library, or
    call the Gemini service. *)
Definition is_read (ev : event) : bool :=
  match ev with ReadFile _ => true | _ => false end.
Definition is_extraction (ev : event) : bool :=
  match ev with PdfReader _ | Document _ => true | _ => false end.
Definition is_ai_call (ev : event) : bool :=
  match ev with GenerateContent _ _ => true | _ => false end.

Definition count (p : event -> bool) (t : list event) : nat :=
  List.length (filter p t).

(** A text of nothing but whitespace (the empty text too). *)
Fixpoint all_space (s : string) : bool :=
  match s with
  | EmptyString => true
  | String c s' => isspace c && all_space s'
  end.

(** [isspace], [strip] and [all_space] above know the whitespace of the
    ASCII range.  Python's [str.strip] and [str.isspace] also take these
    characters for whitespace: U+0085, U+00A0, U+1680, U+2000 to U+200A,
    U+2028, U+2029, U+202F, U+205F and U+3000.  On a text that holds none
    of them the functions above are those of Python. *)
Definition wide_spaces : list N :=
  [0x85; 0xA0; 0x1680; 0x2000; 0x2001; 0x2002; 0x2003; 0x2004; 0x2005;
   0x2006; 0x2007; 0x2008; 0x2009; 0x200A; 0x2028; 0x2029; 0x202F; 0x205F;
   0x3000]%N.

Definition has_wide_space (s : string) : bool :=
  existsb (fun u => contains (string_of (utf8 u)) s) wide_spaces.

(** The text [j] in a fenced block: the opening line, [j], the closing
    line. *)
Definition fenced (j : string) : string :=
  fence ++ "json" ++ nl ++ j ++ nl ++ fence.

(** ** The result shape of the specification

    Section 3 of the specification describes an analysis result: a JSON
    object with [atsScore] an integer from 0 to 100, [summary] a string,
    [categoryScores] a mapping with exactly the keys [hardSkills],
    [softSkills], [experience] and [qualifications], each a number from 0
    to 5, and [strengths], [weaknesses], [recommendations] sequences of
    strings.  The service has no code for it; it is defined here to state
    what the service does and does not guarantee. *)

Module Shape.

(** The text before the first character that satisfies [p], and the text
    from that character on. *)
Fixpoint span (p : ascii -> bool) (s : string) : string * string :=
  match s with
  | EmptyString => (EmptyString, EmptyString)
  | String c s' =>
      if p c then (EmptyString, s)
      else let '(a, b) := span p s' in (String c a, b)
  end.

Fixpoint all_digits (s : string) : bool :=
  match s with
  | EmptyString => true
  | String c s' => is_digit c && all_digits s'
  end.

Definition tail (s : string) : string :=
  match s with
  | EmptyString => EmptyString
  | String _ s' => s'
  end.

(** A float literal [m] and [e] with value [m * 10 ^ e]; the literals of
    NaN and the infinities have none. *)
Definition decimal_of (literal : string) : option (Z * Z) :=
  let '(neg, body) :=
    match literal with
    | String "-" r => (true, r)
    | _ => (false, literal)
    end in
  let '(mant, ex) := span (fun c => Ascii.eqb c "e" || Ascii.eqb c "E") body in
  let '(ip, fp) := span (fun c => Ascii.eqb c ".") mant in
  let fp := tail fp in
  let ex := match tail ex with String "+" r => r | r => r end in
  if all_digits ip && negb (String.eqb ip "") && all_digits fp
     && all_digits (match ex with String "-" r => r | r => r end)
  then
    let m := digits_value (ip ++ fp) 0 in
    Some (if neg then (- m)%Z else m, (int_of ex - Z.of_nat (String.length fp))%Z)
  else None.

(** [lo <= m * 10 ^ e <= hi] *)
Definition decimal_between (lo hi : Z) (d : Z * Z) : bool :=
  let '(m, e) := d in
  if (0 <=? e)%Z then
    ((lo <=? m * 10 ^ e) && (m * 10 ^ e <=? hi))%Z
  else
    ((lo * 10 ^ (- e) <=? m) && (m <=? hi * 10 ^ (- e)))%Z.

(** A number from [lo] to [hi]. *)
Definition number_between (lo hi : Z) (v : value) : bool :=
  match v with
  | VInt n => ((lo <=? n) && (n <=? hi))%Z
  | VFloat literal =>
      match decimal_of literal with
      | Some d => decimal_between lo hi d
      | None => false
      end
  | _ => false
  end.

Definition is_string (v : value) : bool :=
  match v with VStr _ => true | _ => false end.

Definition strings (v : option value) : bool :=
  match v with
  | Some (VList items) => forallb is_string items
  | _ => false
  end.

Definition category_keys : list string :=
  ["hardSkills"; "softSkills"; "experience"; "qualifications"].

Definition category_scores (v : option value) : bool :=
  match v with
  | Some (VDict c) =>
      (List.length c =? 4)%nat
      && forallb (fun k => match get k c with
                           | Some x => number_between 0 5 x
                           | None => false
                           end) category_keys
  | _ => false
  end.

Definition AnalysisResult (v : value) : bool :=
  match v with
  | VDict d =>
      match get "atsScore" d with
      | Some (VInt n) => ((0 <=? n) && (n <=? 100))%Z
      | _ => false
      end
      && match get "summary" d with Some (VStr _) => true | _ => false end
      && category_scores (get "categoryScores" d)
      && strings (get "strengths" d)
      && strings (get "weaknesses" d)
      && strings (get "recommendations" d)
  | _ => false
  end.

End Shape.

(** ** The service *)

(** The upload FastAPI hands to the handler: its file name, and what
    [await resumeFile.read()] gives (the bytes, or the [str] of the
    exception it raises). *)
Record UploadFile : Type := {
  filename : string;
  read : string + bytes
}.

(** An [UploadFile] object defines neither [__bool__] nor [__len__]: it is
    true. *)
Definition file_truthy (f : UploadFile) : bool := true.

(** A [JSONResponse] that has been built: its status and its content.
    Building one can fail, see [JSONResponse_init] below. *)
Record JSONResponse : Type := {
  status_code : Z;
  content : value
}.

Record Health : Type := {
  status : string;
  message : string;
  gemini_configured : bool
}.

(** The lines of the template of [build_analysis_prompt]. *)
Definition prompt_lines (resume_text job_description : string) : list string :=
    ["You are an expert ATS (Applicant Tracking System) analyzer and career consultant. ";
     "Analyze the following resume against the job description and provide a comprehensive analysis.";
     "";
     "RESUME CONTENT:";
     resume_text;
     "";
     "JOB DESCRIPTION:";
     job_description;
     "";
     "Provide your analysis in the following JSON format (respond ONLY with valid JSON, no markdown, no extra text):";
     "";
     "{";
     "    " ++ dq ++ "atsScore" ++ dq ++ ": <number between 0-100>,";
     "    " ++ dq ++ "summary" ++ dq ++ ": " ++ dq ++ "<2-3 sentence summary of candidate's fit for the role>" ++ dq ++ ",";
     "    " ++ dq ++ "categoryScores" ++ dq ++ ": {";
     "        " ++ dq ++ "hardSkills" ++ dq ++ ": <score 0-5>,";
     "        " ++ dq ++ "softSkills" ++ dq ++ ": <score 0-5>,";
     "        " ++ dq ++ "experience" ++ dq ++ ": <score 0-5>,";
     "        " ++ dq ++ "qualifications" ++ dq ++ ": <score 0-5>";
     "    },";
     "    " ++ dq ++ "strengths" ++ dq ++ ": [";
     "        " ++ dq ++ "<strength 1>" ++ dq ++ ",";
     "        " ++ dq ++ "<strength 2>" ++ dq ++ ",";
     "        " ++ dq ++ "<strength 3>" ++ dq;
     "    ],";
     "    " ++ dq ++ "weaknesses" ++ dq ++ ": [";
     "        " ++ dq ++ "<weakness 1>" ++ dq ++ ",";
     "        " ++ dq ++ "<weakness 2>" ++ dq ++ ",";
     "        " ++ dq ++ "<weakness 3>" ++ dq;
     "    ],";
     "    " ++ dq ++ "recommendations" ++ dq ++ ": [";
     "        " ++ dq ++ "<actionable recommendation 1>" ++ dq ++ ",";
     "        " ++ dq ++ "<actionable recommendation 2>" ++ dq ++ ",";
     "        " ++ dq ++ "<actionable recommendation 3>" ++ dq;
     "    ]";
     "}";
     "";
     "ANALYSIS CRITERIA:";
     "- ATS Score: Overall match percentage (0-100)";
     "- Hard Skills: Technical skills match (0-5)";
     "- Soft Skills: Communication, leadership, teamwork (0-5)";
     "- Experience: Relevant work experience (0-5)";
     "- Qualifications: Education and certifications (0-5)";
     "- Strengths: Top 3 positive highlights";
     "- Weaknesses: Top 3 areas for improvement";
     "- Recommendations: Top 3 actionable suggestions to improve the resume";
     "";
     "Be honest, constructive, and specific in your analysis."].

(** [build_analysis_prompt]: the template, a line feed after each line. *)
Definition build_analysis_prompt (resume_text job_description : string)
  : string :=
  String.concat "" (map (fun l => l ++ nl) (prompt_lines resume_text job_description)).

(** The events of the handler from the first [print] of its [try] block to
    the end of the extraction, whose events are [te]. *)
Definition events_before_check (f : UploadFile) (te : list event) : list event :=
  [Print ("📄 Reading file: " ++ filename f); ReadFile (filename f);
   Print "📝 Extracting text from file..."] ++ te.

(** ** Sample libraries and requests

    Stand-ins for the libraries, to run the service on concrete requests:
    a Gemini client that answers a fixed text, readers that return fixed
    pages or fail, and an upload. *)

Definition answering (text : string) : string -> string -> string + string :=
  fun _ _ => inr text.

Definition reading (pages : list string) : bytes -> string + list string :=
  fun _ => inr pages.

Definition failing (text : string) : bytes -> string + list string :=
  fun _ => inl text.

Definition sample_pages : list string :=
  ["Jane Doe, backend engineer";
   "5 years of experience with Python and SQL"].


Definition sample_job : string :=
  "Looking for a Python backend engineer with 3+ years experience".

Definition upload (name : string) : UploadFile :=
  {| filename := name; read := inr [] |}.

Definition sample_key : option string := Some "sample-key".

(** A renderer for [JSONResponse] that refuses, as [json.dumps] does with
    [allow_nan=False], a value that holds one of the literals [NaN],
    [Infinity] and [-Infinity], and renders every other value.  The text
    of the [ValueError] is that of the C encoder of the [json] package. *)
Fixpoint holds_nan (v : value) : bool :=
  match v with
  | VFloat literal =>
      String.eqb literal "NaN" || String.eqb literal "Infinity"
      || String.eqb literal "-Infinity"
  | VList items => existsb holds_nan items
  | VDict pairs => existsb (fun kv => holds_nan (snd kv)) pairs
  | _ => false
  end.

Definition strict_render (v : value) : option string :=
  if holds_nan v then Some "Out of range float values are not JSON compliant"
  else None.


(** The text the service extracts from [sample_pages]. *)
Definition sample_text : string :=
  "Jane Doe, backend engineer" ++ nl ++ "5 years of experience with Python and SQL".

(** ** Tactics *)

(** Case analysis on what a [match] or an [if] of the goal looks at. *)
Ltac split_cases :=
  repeat match goal with
         | |- context [match ?x with _ => _ end] => is_var x; destruct x
         | |- context [if ?b then _ else _] => destruct b
         end.

(** One step of the decoder on a given character. *)
Ltac run_space :=
  unfold decode; simpl;
  unfold in_string, in_number; simpl;
  split_cases; simpl;
  unfold end_number, end_string; simpl;
  split_cases; simpl;
  unfold after_value, unread; simpl;
  split_cases; simpl; try discriminate; try (intros H; exact H).

(** ** The client

    [frontend/app.py] is a Streamlit script.  What is embedded is its left
    panel from the press of the button on (lines 41 to 109): the checks of
    the inputs, the request to the service, and what is kept of the answer
    in the session.  The charts of the right panel are drawn by plotting
    libraries from floating-point data and are not part of the model. *)
Module App.

Definition BACKEND_URL : string := "http://localhost:8081/api/resume".

(** The upload widget returns [None] or an uploaded file; an uploaded file
    is a [BytesIO] object, true whatever it holds. *)
Record UploadedFile : Type := {
  name : string;
  getvalue : bytes;
  type : string
}.

(** The arguments of [requests.post]. *)
Record Request : Type := {
  url : string;
  resumeFile : string * bytes * string;   (* files['resumeFile'] *)
  jobDescription : string;                (* data['jobDescription'] *)
  timeout : Z
}.

(** The response: its status, its body as text, and what
    [response.json()] gives (the value, or the [str] of the exception it
    raises). *)
Record Response : Type := {
  status_code : Z;
  text : string;
  json : string + value
}.

(** An exception, by the [except] clause of line 104, 106 or 108 that
    catches it: a [ConnectionError] (a [ConnectTimeout] is one), another
    [Timeout], or any other exception, known by its [str]. *)
Inductive failure : Type :=
| ConnectionError
| Timeout
| Exception (message : string).

(** What the script does to the page and to the network. *)
Inductive call : Type :=
| StError (body : string)           (* st.error(body) *)
| StSpinner (text : string)         (* with st.spinner(text): *)
| RequestsPost (request : Request)  (* requests.post(url, files=, data=, timeout=) *)
| Streamlit (widget : string).      (* a widget of lines 86 to 99 *)

(** [st.session_state], a mapping from names to values. *)
Definition session_state : Type := list (string * value).

(** Lines 50 to 63: the request that is sent. *)
Definition request_of (resume_file : UploadedFile) (job_description : string)
  : Request :=
  {| url := BACKEND_URL ++ "/analyze";
     resumeFile := (name resume_file, getvalue resume_file, type resume_file);
     jobDescription := job_description;
     timeout := 60 |}.

Section Script.

(** [requests.post]: the response, or the exception raised. *)
Variable requests_post : Request -> failure + Response.

(** The [str] of the [TypeError] that [result[key]] raises for a [result]
    that is no dict. *)
Variable type_error : value -> string.

(** Lines 86 to 99, which show the score and the summary: the widgets
    drawn and, when one of the lines raises (a score that does not divide
    by 100, a progress value out of range), the [str] of the exception. *)
Variable show_results : value -> value -> list string * option string.

(** [result[key]]: a missing key raises [KeyError(key)], whose [str] is
    the key in single quotes for the keys of the script. *)
Definition subscript (result : value) (key : string) : string + value :=
  match result with
  | VDict pairs =>
      match get key pairs with
      | Some v => inr v
      | None => inl ("'" ++ key ++ "'")
      end
  | _ => inl (type_error result)
  end.

(** [result.get(key, default)] for a dict. *)
Definition get_or (result : value) (key : string) (default : value) : value :=
  match result with
  | VDict pairs =>
      match get key pairs with
      | Some v => v
      | None => default
      end
  | _ => default
  end.

(** Lines 77 to 83. *)
Definition store (ats_score summary category_scores strengths weaknesses
                    recommendations : value) (state : session_state)
  : session_state :=
  dict_set "recommendations" recommendations
    (dict_set "weaknesses" weaknesses
       (dict_set "strengths" strengths
          (dict_set "category_scores" category_scores
             (dict_set "summary" summary
                (dict_set "ats_score" ats_score
                   (dict_set "analysis_done" (VBool true) state)))))).

(** Line 109. *)
Definition an_error_occurred (e : string) : call :=
  StError ("❌ An error occurred: " ++ e).

(** Lines 65 to 102: what is done with the response. *)
Definition show_response (response : Response) (state : session_state)
  : list call * session_state :=
  if (status_code response =? 200)%Z then
    match json response with
    | inl e => ([an_error_occurred e], state)
    | inr result =>
        match subscript result "atsScore" with
        | inl e => ([an_error_occurred e], state)
        | inr ats_score =>
            match subscript result "summary" with
            | inl e => ([an_error_occurred e], state)
            | inr summary =>
                match subscript result "categoryScores" with
                | inl e => ([an_error_occurred e], state)
                | inr category_scores =>
                    let strengths := get_or result "strengths" (VList []) in
                    let weaknesses := get_or result "weaknesses" (VList []) in
                    let recommendations :=
                      get_or result "recommendations" (VList []) in
                    let state :=
                      store ats_score summary category_scores strengths
                        weaknesses recommendations state in
                    let '(widgets, raised) := show_results ats_score summary in
                    ((map Streamlit widgets
                      ++ match raised with
                         | Some e => [an_error_occurred e]
                         | None => []
                         end)%list,
                     state)
                end
            end
        end
    end
  else ([StError ("Error: " ++ text response)], state).

(** Lines 41 to 109: the press of the button, for the file of the upload
    widget and the text of the text area. *)
Definition analyze (state : session_state) (resume_file : option UploadedFile)
    (job_description : string) : list call * session_state :=
  match resume_file with
  | None => ([StError "Please upload a resume file"], state)
  | Some resume_file =>
      if negb (truthy (strip job_description)) then
        ([StError "Please provide a job description"], state)
      else
        let request := request_of resume_file job_description in
        let '(calls, state) :=
          match requests_post request with
          | inr response => show_response response state
          | inl ConnectionError =>
              ([StError "❌ Cannot connect to backend server. Make sure Python backend is running on port 8081"],
               state)
          | inl Timeout =>
              ([StError "❌ Request timeout. The analysis is taking too long."],
               state)
          | inl (Exception e) => ([an_error_occurred e], state)
          end in
        (StSpinner "Analyzing resume with AI..." :: RequestsPost request :: calls,
         state)
  end.

Definition is_post (c : call) : bool :=
  match c with RequestsPost _ => true | _ => false end.

End Script.

(** Stand-ins to run the script on concrete inputs: an upload, a service
    that gives a fixed answer or cannot be reached, a text for every
    [TypeError], and widgets that draw nothing and do not raise. *)
Definition sample_file : UploadedFile :=
  {| name := "resume.pdf"; getvalue := []; type := "application/pdf" |}.

Definition answering (response : Response) : Request -> failure + Response :=
  fun _ => inr response.

Definition unreachable : Request -> failure + Response :=
  fun _ => inl ConnectionError.

Definition not_subscriptable : value -> string :=
  fun _ => "object is not subscriptable".

Definition drawing_nothing : value -> value -> list string * option string :=
  fun _ _ => ([], None).

(** The answer of a service that returned an analysis with its three
    required keys and no list. *)
Definition sample_success : Response :=
  {| status_code := 200;
     text := "{}";
     json := inr (VDict [("atsScore", VInt 72);
                         ("summary", VStr "A good match.");
                         ("categoryScores", VDict [])]) |}.

(** Widgets that raise. *)
Definition raising : value -> value -> list string * option string :=
  fun _ _ => (["st.divider()"], Some "Progress Value has invalid value").

(** The answer of a service that returned the empty object as a success. *)
Definition empty_success : Response :=
  {| status_code := 200; text := "{}"; json := inr (VDict []) |}.

End App.

Section Service.

(** [GEMINI_API_KEY = os.getenv("GEMINI_API_KEY")], read once when the
    module is loaded. *)
Variable GEMINI_API_KEY : option string.

(** The libraries.  Each gives its result or the [str] of the exception it
    raises: the texts [page.extract_text()] of the pages of a PDF, the
    texts of the paragraphs of a DOCX, and [response.text] of
    [GenerativeModel(model).generate_content(prompt)].  Building the client
    object [GenerativeModel(model)] is taken not to fail, and the call to
    raise no [JSONDecodeError]. *)
Variable pdf_pages : bytes -> string + list string.
Variable docx_paragraphs : bytes -> string + list string.
Variable generate_content : string -> string -> string + string.

(** [json.loads] *)
Variable json_loads : string -> exn + value.

(** [JSONResponse] renders its content when it is built: Starlette calls
    [json.dumps] on it with [allow_nan=False] and [ensure_ascii=False] and
    encodes the text as UTF-8.  [render_error content] is the [str] of the
    exception this raises, if it raises (for a content that holds NaN, an
    infinity or half of a surrogate pair); the bytes of the body are not
    part of the model. *)
Variable render_error : value -> option string.

Definition extract_text_from_pdf (file_content : bytes) : M string :=
  tell (PdfReader file_content) ;;
  match pdf_pages file_content with
  | inr pages =>
      let text := fold_left (fun text page => text ++ page ++ nl) pages "" in
      ret (strip text)
  | inl e => raise (HTTPException 400 ("Error extracting PDF: " ++ e))
  end.

Definition extract_text_from_docx (file_content : bytes) : M string :=
  tell (Document file_content) ;;
  match docx_paragraphs file_content with
  | inr paragraphs =>
      let text :=
        fold_left (fun text paragraph => text ++ paragraph ++ nl) paragraphs "" in
      ret (strip text)
  | inl e => raise (HTTPException 400 ("Error extracting DOCX: " ++ e))
  end.

Definition extract_text_from_file (filename : string) (file_content : bytes)
  : M string :=
  let file_extension := file_extension filename in
  if String.eqb file_extension "pdf" then extract_text_from_pdf file_content
  else if String.eqb file_extension "docx" then extract_text_from_docx file_content
  else raise (HTTPException 400
                ("Unsupported file format: " ++ file_extension
                 ++ ". Only PDF and DOCX are supported.")).

(** Lines 229 to 232: a response that starts with a fence loses its first
    and its last line. *)
Definition strip_fence (response_text : string) : string :=
  if startswith fence response_text then
    let lines := split LF response_text in
    join nl (slice lines 1 (-1))
  else response_text.

(** Lines 226 to 232: what is handed to [json.loads] for the text [text]
    of the response. *)
Definition cleaned (text : string) : string :=
  let response_text := strip text in
  strip_fence response_text.

(** What the [except json.JSONDecodeError] clause of [analyze_with_gemini]
    raises. *)
Definition parse_failure (e : exn) : exc :=
  HTTPException 500 ("Failed to parse AI response as JSON: " ++ str e).

(** The [except Exception] clause of [analyze_with_gemini]. *)
Definition gemini_api_error {A} (e : exn) : M A :=
  print ("❌ Gemini API error: " ++ str e) ;;
  raise (HTTPException 500 ("Error calling Gemini AI: " ++ str e)).

Definition analyze_with_gemini (resume_text job_description : string) : M value :=
  let model := "gemini-flash-latest" in
  let prompt := build_analysis_prompt resume_text job_description in
  print "🤖 Calling Gemini AI..." ;;
  tell (GenerateContent model prompt) ;;
  match generate_content model prompt with
  | inl e => gemini_api_error (OtherException e)
  | inr text =>
      let response_text := cleaned text in
      match json_loads response_text with
      | inr analysis_result =>
          print "✅ Analysis completed successfully" ;;
          ret analysis_result
      | inl (JSONDecodeError _ _ _ as e) =>
          print ("❌ JSON parsing error: " ++ str e) ;;
          print ("Response text: " ++ response_text) ;;
          raise (parse_failure e)
      | inl e => gemini_api_error e
      end
  end.

Definition health_check : Health :=
  {| status := "healthy";
     message := "Resume Analyzer API is running!";
     gemini_configured := truthy_opt GEMINI_API_KEY |}.

(** [JSONResponse(status_code=..., content=...)] *)
Definition JSONResponse_init (status_code : Z) (content : value)
  : M JSONResponse :=
  match render_error content with
  | Some e => raise (Raised (OtherException e))
  | None => ret {| status_code := status_code; content := content |}
  end.

Definition analyze_resume (resumeFile : UploadFile) (jobDescription : string)
  : M JSONResponse :=
  if negb (truthy_opt GEMINI_API_KEY) then
    raise (HTTPException 500
             "Gemini API key not configured. Please add GEMINI_API_KEY to .env file")
  else if negb (file_truthy resumeFile) then
    raise (HTTPException 400 "Resume file is required")
  else if negb (truthy jobDescription) || negb (truthy (strip jobDescription)) then
    raise (HTTPException 400 "Job description is required")
  else
    let allowed_extensions := ["pdf"; "docx"] in
    let file_extension := file_extension (filename resumeFile) in
    if negb (mem file_extension allowed_extensions) then
      raise (HTTPException 400
               ("Invalid file type. Allowed: " ++ join ", " allowed_extensions))
    else
      try_except
        (print ("📄 Reading file: " ++ filename resumeFile) ;;
         tell (ReadFile (filename resumeFile)) ;;
         file_content <- result (read resumeFile) ;;
         print "📝 Extracting text from file..." ;;
         resume_text <- extract_text_from_file (filename resumeFile) file_content ;;
         if negb (truthy resume_text) || (len (strip resume_text) <? 50)%Z then
           raise (HTTPException 400
                    "Could not extract enough text from resume. Please ensure the file is not corrupted or password-protected.")
         else
           print ("✅ Extracted " ++ decimal (Z.to_nat (len resume_text)) ++ " characters") ;;
           print "🤖 Analyzing with Gemini AI..." ;;
           analysis_result <- analyze_with_gemini resume_text jobDescription ;;
           print "✅ Returning analysis results" ;;
           JSONResponse_init 200 analysis_result)
        (fun e =>
           match e with
           | HTTPException _ _ => raise e
           | Raised e =>
               print ("❌ Unexpected error: " ++ str e) ;;
               raise (HTTPException 500 ("Internal server error: " ++ str e))
           end).

(** ** The module beyond the request handlers *)

(** *** Loading the module

    Lines 41 to 46 run once, when the module is imported: without a key
    (unset or empty) a warning is printed, with a key the Gemini client
    library is configured. *)
Inductive load_event : Type :=
| LoadPrint (line : string)       (* print(line) *)
| Configure (api_key : string).   (* genai.configure(api_key=api_key) *)

Definition configure_gemini : list load_event :=
  match GEMINI_API_KEY with
  | Some api_key =>
      if negb (truthy api_key) then
        [LoadPrint "⚠️  WARNING: GEMINI_API_KEY not found in .env file!"]
      else
        [Configure api_key; LoadPrint "✅ Gemini AI configured successfully"]
  | None => [LoadPrint "⚠️  WARNING: GEMINI_API_KEY not found in .env file!"]
  end.

(** *** The fixed parts of the prompt

    The template of [build_analysis_prompt] has two holes.  What stands
    before the resume text, between the resume text and the job
    description, and after the job description: *)
Definition prompt_head : string :=
  "You are an expert ATS (Applicant Tracking System) analyzer and career consultant. "
  ++ nl
  ++ "Analyze the following resume against the job description and provide a comprehensive analysis."
  ++ nl ++ nl ++ "RESUME CONTENT:" ++ nl.

Definition prompt_middle : string :=
  nl ++ nl ++ "JOB DESCRIPTION:" ++ nl.

Definition prompt_tail : string :=
  nl ++ String.concat "" (map (fun l => l ++ nl) (skipn 8 (prompt_lines "" ""))).

(** *** The calls of a run

    The events of a trace that are not [print]s: reading the upload,
    opening it with a reader library, calling the Gemini service. *)
Definition is_print (ev : event) : bool :=
  match ev with Print _ => true | _ => false end.

Definition calls (t : list event) : list event :=
  filter (fun ev => negb (is_print ev)) t.

(** The reader call that the extension of [name] selects for the bytes
    [content], when the extension is one of the two the handler allows. *)
Definition opened (name : string) (content : bytes) : event :=
  if String.eqb (file_extension name) "pdf" then PdfReader content
  else Document content.

(** ** Lemmas on texts *)

Lemma append_assoc (a b c : string) : (a ++ b) ++ c = a ++ b ++ c.
Proof. induction a as [|x a IH]; simpl; [reflexivity | now rewrite IH]. Qed.

Lemma split_not_nil (sep : ascii) (s : string) : split sep s <> [].
Proof.
  destruct s as [|c s]; simpl; [discriminate|].
  destruct (Ascii.eqb c sep); [discriminate|].
  destruct (split sep s); discriminate.
Qed.

Lemma split_cons_other (sep c : ascii) (s : string) :
  Ascii.eqb c sep = false ->
  split sep (String c s) =
  String c (hd "" (split sep s)) :: tl (split sep s).
Proof.
  intros H. simpl. rewrite H.
  destruct (split sep s) eqn:E; [now apply split_not_nil in E | reflexivity].
Qed.

Lemma split_app (sep : ascii) (a b : string) :
  split sep (a ++ String sep b) = (split sep a ++ split sep b)%list.
Proof.
  induction a as [|c a IH].
  - simpl. now rewrite Ascii.eqb_refl.
  - change (String c a ++ String sep b) with (String c (a ++ String sep b)).
    destruct (Ascii.eqb c sep) eqn:E.
    + simpl. rewrite E, IH. reflexivity.
    + rewrite !split_cons_other by assumption. rewrite IH.
      destruct (split sep a) eqn:Ea; [now apply split_not_nil in Ea|].
      reflexivity.
Qed.

Lemma split_no_sep (sep : ascii) (s : string) :
  has_char sep s = false -> split sep s = [s].
Proof.
  induction s as [|c s IH]; simpl; [reflexivity|].
  intros H. apply orb_false_iff in H as [Hc Hs].
  rewrite Hc, (IH Hs). reflexivity.
Qed.

Lemma join_split (sep : ascii) (s : string) :
  join (String sep "") (split sep s) = s.
Proof.
  induction s as [|c s IH]; [reflexivity|].
  simpl split. destruct (Ascii.eqb c sep) eqn:E.
  - apply Ascii.eqb_eq in E. subst c.
    destruct (split sep s) eqn:Es; [now apply split_not_nil in Es|].
    change (join (String sep "") ("" :: s0 :: l))
      with (String sep (join (String sep "") (s0 :: l))).
    now rewrite IH.
  - destruct (split sep s) as [|h t] eqn:Es; [now apply split_not_nil in Es|].
    destruct t as [|h' t].
    + simpl in *. now rewrite IH.
    + change (join (String sep "") (String c h :: h' :: t))
        with (String c (join (String sep "") (h :: h' :: t))).
      now rewrite IH.
Qed.

Lemma slice_middle {A} (l : list A) : slice l 1 (-1) = removelast (tl l).
Proof.
  unfold slice, clamp. simpl (if (1 <? 0)%Z then _ else _).
  simpl (if (-1 <? 0)%Z then _ else _).
  destruct l as [|x l]; [reflexivity|].
  simpl List.length. simpl tl.
  replace (Z.to_nat (Z.min (Z.of_nat (S (List.length l))) (Z.max 0 1))) with 1%nat by lia.
  replace (Z.to_nat (Z.min (Z.of_nat (S (List.length l)))
            (Z.max 0 (Z.of_nat (S (List.length l)) + -1))))
    with (List.length l) by lia.
  simpl skipn. rewrite removelast_firstn_len.
  f_equal. lia.
Qed.

Lemma last_item_last (l : list string) : last_item l = last l "".
Proof.
  unfold last_item, index. simpl (if (-1 <? 0)%Z then _ else _).
  destruct l as [|x l]; [reflexivity|].
  replace (Z.of_nat (List.length (x :: l)) + -1 <? 0)%Z with false
    by (symmetry; apply Z.ltb_ge; simpl List.length; lia).
  replace (Z.to_nat (Z.of_nat (List.length (x :: l)) + -1)) with (List.length l)
    by (simpl List.length; lia).
  revert x. induction l as [|y l IH]; intros x; [reflexivity|].
  simpl List.length. simpl nth_error. rewrite IH. reflexivity.
Qed.

(** Stripping *)

Lemma rstrip_cons (c : ascii) (s : string) :
  isspace c = false -> rstrip (String c s) = String c (rstrip s).
Proof. intros H. simpl. rewrite H. now destruct (rstrip s). Qed.

Lemma rstrip_app (a b : string) :
  rstrip b <> "" -> rstrip (a ++ b) = a ++ rstrip b.
Proof.
  intros H. induction a as [|c a IH]; [reflexivity|].
  simpl. rewrite IH. destruct (a ++ rstrip b) eqn:E; [|reflexivity].
  destruct a; simpl in E; [contradiction | discriminate].
Qed.

Lemma lstrip_cons (c : ascii) (s : string) :
  isspace c = false -> lstrip (String c s) = String c s.
Proof. intros H. simpl. now rewrite H. Qed.

Lemma rstrip_all_space (s : string) : all_space s = true -> rstrip s = "".
Proof.
  induction s as [|c s IH]; simpl; [reflexivity|].
  intros H. apply andb_true_iff in H as [Hc Hs]. now rewrite (IH Hs), Hc.
Qed.

Lemma rstrip_split (s : string) :
  exists post, s = rstrip s ++ post /\ all_space post = true.
Proof.
  induction s as [|c s [post [E Hp]]].
  - exists "". split; reflexivity.
  - simpl. destruct (rstrip s) eqn:Er.
    + destruct (isspace c) eqn:Ec.
      * exists (String c s). split; [reflexivity|].
        simpl. rewrite Ec. simpl in E. now rewrite E.
      * exists post. split; [|assumption]. simpl. now rewrite E at 1.
    + exists post. split; [|assumption]. now rewrite E at 1.
Qed.

Lemma lstrip_split (s : string) :
  exists pre, s = pre ++ lstrip s /\ all_space pre = true.
Proof.
  induction s as [|c s [pre [E Hp]]].
  - exists "". split; reflexivity.
  - simpl. destruct (isspace c) eqn:Ec.
    + exists (String c pre). split; [simpl; now rewrite <- E|].
      simpl. now rewrite Ec.
    + exists "". split; reflexivity.
Qed.

Lemma strip_split (s : string) :
  exists pre post,
    s = pre ++ strip s ++ post /\ all_space pre = true /\ all_space post = true.
Proof.
  destruct (rstrip_split s) as [post [E1 H1]].
  destruct (lstrip_split (rstrip s)) as [pre [E2 H2]].
  exists pre, post. repeat split; try assumption.
  unfold strip. rewrite <- append_assoc, <- E2. exact E1.
Qed.

Lemma all_space_app (a b : string) :
  all_space (a ++ b) = all_space a && all_space b.
Proof.
  induction a as [|c a IH]; simpl; [reflexivity|].
  now rewrite IH, andb_assoc.
Qed.

Lemma strip_empty_iff (s : string) : strip s = "" <-> all_space s = true.
Proof.
  split.
  - intros H. destruct (strip_split s) as [pre [post [E [H1 H2]]]].
    rewrite H in E. rewrite E. simpl. rewrite all_space_app.
    now rewrite H1, H2.
  - intros H. unfold strip. now rewrite (rstrip_all_space s H).
Qed.

(** Lower case *)

Lemma lower_char_dot (c : ascii) : Ascii.eqb (lower_char c) "." = Ascii.eqb c ".".
Proof.
  destruct c as [b0 b1 b2 b3 b4 b5 b6 b7].
  destruct b0, b1, b2, b3, b4, b5, b6, b7; reflexivity.
Qed.

Lemma split_lower (s : string) :
  split "." (lower s) = map lower (split "." s).
Proof.
  induction s as [|c s IH]; [reflexivity|].
  simpl. rewrite lower_char_dot, IH.
  destruct (Ascii.eqb c "."); [reflexivity|].
  destruct (split "." s); reflexivity.
Qed.

Lemma last_map_lower (l : list string) :
  last (map lower l) "" = lower (last l "").
Proof.
  induction l as [|x l IH]; [reflexivity|].
  destruct l; [reflexivity|]. exact IH.
Qed.

Lemma file_extension_last (name : string) :
  file_extension name = lower (last (split "." name) "").
Proof.
  unfold file_extension.
  now rewrite last_item_last, split_lower, last_map_lower.
Qed.

(** Lines *)

Lemma has_char_app (c : ascii) (a b : string) :
  has_char c (a ++ b) = has_char c a || has_char c b.
Proof.
  induction a as [|x a IH]; simpl; [reflexivity|].
  now rewrite IH, orb_assoc.
Qed.

Lemma has_char_rstrip (c : ascii) (s : string) :
  has_char c s = false -> has_char c (rstrip s) = false.
Proof.
  destruct (rstrip_split s) as [post [E _]]. intros H.
  rewrite E, has_char_app in H. now apply orb_false_iff in H.
Qed.

Lemma rstrip_not_blank (s : string) : all_space s = false -> rstrip s <> "".
Proof.
  intros H E. destruct (rstrip_split s) as [post [Es Hp]].
  rewrite E in Es. simpl in Es. congruence.
Qed.

(** The lines between a first and a last line. *)
Lemma middle_lines (first body last : string) :
  has_char LF first = false -> has_char LF last = false ->
  join nl (slice (split LF (first ++ nl ++ body ++ nl ++ last)) 1 (-1)) = body.
Proof.
  intros Hf Hl.
  change (first ++ nl ++ body ++ nl ++ last)
    with (first ++ String LF (body ++ String LF last)).
  rewrite !split_app, (split_no_sep LF first Hf), (split_no_sep LF last Hl).
  rewrite slice_middle. simpl tl. rewrite removelast_last.
  apply join_split.
Qed.

(** A text of two lines or fewer has no line between its first and its
    last. *)
Lemma no_middle_line (first last : string) :
  has_char LF first = false -> has_char LF last = false ->
  join nl (slice (split LF (first ++ nl ++ last)) 1 (-1)) = "".
Proof.
  intros Hf Hl.
  change (first ++ nl ++ last) with (first ++ String LF last).
  rewrite split_app, (split_no_sep LF first Hf), (split_no_sep LF last Hl).
  reflexivity.
Qed.

(** Fences *)

Lemma fence_kept (raw : string) :
  startswith fence raw = true -> startswith fence (strip raw) = true.
Proof.
  unfold fence. intros H.
  destruct raw as [|a raw]; [discriminate|].
  cbn [startswith] in H. apply andb_true_iff in H as [Ha H].
  destruct raw as [|b raw]; [discriminate|].
  cbn [startswith] in H. apply andb_true_iff in H as [Hb H].
  destruct raw as [|c raw]; [discriminate|].
  cbn [startswith] in H. apply andb_true_iff in H as [Hc _].
  apply Ascii.eqb_eq in Ha, Hb, Hc. subst a b c.
  unfold strip. rewrite !rstrip_cons by reflexivity.
  rewrite lstrip_cons by reflexivity. reflexivity.
Qed.

Lemma strip_fenced (j : string) : strip (fenced j) = fenced j.
Proof.
  unfold strip, fenced, fence.
  replace ("```" ++ "json" ++ nl ++ j ++ nl ++ "```")
    with (("```json" ++ nl ++ j ++ nl) ++ "```")
    by (now rewrite !append_assoc).
  rewrite rstrip_app by discriminate.
  change (rstrip "```") with "```". apply lstrip_cons. reflexivity.
Qed.

Lemma open_line_kept (rest : string) :
  strip ("```json" ++ rest) = "```json" ++ rstrip rest.
Proof.
  unfold strip. cbn [append]. rewrite !rstrip_cons by reflexivity.
  apply lstrip_cons. reflexivity.
Qed.

(** ** Lemmas on the decoder *)

Lemma run_app (a b : string) : forall m stack pos,
  run m stack pos (a ++ b) =
  match run m stack pos a with
  | inl e => inl e
  | inr (m', stack', pos') => run m' stack' pos' b
  end.
Proof.
  induction a as [|c a IH]; intros m stack pos; [reflexivity|].
  simpl. destruct (step m stack c) as [[msg back]|[m1 s1]]; [reflexivity|].
  apply IH.
Qed.

Lemma decode_app (a b : string) m stack pos :
  decode m stack pos (a ++ b) =
  match run m stack pos a with
  | inl e => inl e
  | inr (m', stack', pos') => decode m' stack' pos' b
  end.
Proof.
  unfold decode. rewrite run_app.
  now destruct (run m stack pos a) as [e|[[m1 s1] p1]].
Qed.

Lemma finish_shift m stack pos pos' v :
  finish m stack pos = inr v -> finish m stack pos' = inr v.
Proof.
  destruct m as [| | | | |v0|seen acc hi|seen acc hi|seen acc hi ds
                 |st i f e p|w seen]; simpl; try discriminate;
    try (destruct stack; [intros H; exact H | discriminate]).
  - destruct st; try discriminate; destruct p; try discriminate;
      (destruct stack; [intros H; exact H | discriminate]).
  - destruct (String.length (spelling w) <=? seen)%nat; [|discriminate].
    destruct stack; [intros H; exact H | discriminate].
Qed.

(** A successful run does not depend on where the count starts. *)
Lemma decode_shift (s : string) : forall m stack pos pos' v,
  decode m stack pos s = inr v -> decode m stack pos' s = inr v.
Proof.
  unfold decode. induction s as [|c s IH]; intros m stack pos pos' v; simpl.
  - apply finish_shift.
  - destruct (step m stack c) as [[msg back]|[m1 s1]]; [discriminate|].
    apply IH.
Qed.

(** The ten whitespace characters of Python on the ASCII range. *)
Lemma isspace_cases (c : ascii) :
  isspace c = true ->
  is_ws c = true \/
  In c [ascii_of_nat 11; ascii_of_nat 12; ascii_of_nat 28; ascii_of_nat 29;
        ascii_of_nat 30; ascii_of_nat 31].
Proof.
  destruct c as [b0 b1 b2 b3 b4 b5 b6 b7].
  destruct b0, b1, b2, b3, b4, b5, b6, b7; intros H; try discriminate H;
    first [left; reflexivity | right; simpl; tauto].
Qed.

Lemma is_ws_cases (c : ascii) :
  is_ws c = true ->
  In c [ascii_of_nat 32; ascii_of_nat 9; ascii_of_nat 10; ascii_of_nat 13].
Proof.
  destruct c as [b0 b1 b2 b3 b4 b5 b6 b7].
  destruct b0, b1, b2, b3, b4, b5, b6, b7; intros H; try discriminate H;
    simpl; tauto.
Qed.

Lemma spelling_no_space w n r :
  String.get n (spelling w) = Some r -> isspace r = false.
Proof.
  destruct w; simpl;
    do 10 (destruct n as [|n]; simpl;
           [intros H; first [discriminate H | injection H as <-; reflexivity]|]);
    discriminate.
Qed.

Lemma get_none (s : string) : forall n,
  String.get n s = None -> (String.length s <=? n)%nat = true.
Proof.
  induction s as [|c s IH]; intros n; simpl; [reflexivity|].
  destruct n as [|n]; [discriminate|]. apply IH.
Qed.

(** Whitespace after the document changes nothing: if the machine ends well
    after one more whitespace character, it ends as well without it. *)
Lemma step_space m stack pos c v :
  isspace c = true ->
  decode m stack pos (String c "") = inr v -> finish m stack pos = inr v.
Proof.
  intros Hc. destruct m as [| | | | |v0|seen acc hi|seen acc hi|seen acc hi ds
                            |st i f e p|w seen].
  11: {
    unfold decode. simpl.
    destruct (String.get seen (spelling w)) as [r|] eqn:G.
    - destruct (Ascii.eqb c r) eqn:E; [|discriminate].
      apply Ascii.eqb_eq in E. subst r.
      apply spelling_no_space in G. congruence.
    - rewrite (get_none _ _ G).
      apply isspace_cases in Hc as [Hc|Hc];
        [apply is_ws_cases in Hc|]; simpl in Hc;
        repeat (destruct Hc as [<-|Hc];
                [unfold after_value; simpl; split_cases; simpl;
                 try discriminate; try (intros H; exact H)|]);
        destruct Hc. }
  all: apply isspace_cases in Hc as [Hc|Hc];
    [apply is_ws_cases in Hc|]; simpl in Hc;
    repeat (destruct Hc as [<-|Hc]; [run_space|]); destruct Hc.
Qed.

Lemma decode_trailing (post : string) : forall m stack pos v,
  all_space post = true ->
  decode m stack pos post = inr v -> finish m stack pos = inr v.
Proof.
  induction post as [|c post IH]; intros m stack pos v Hs H.
  - exact H.
  - simpl in Hs. apply andb_true_iff in Hs as [Hc Hs].
    apply (step_space m stack pos c v Hc).
    unfold decode in *. simpl in *.
    destruct (step m stack c) as [[msg back]|[m1 s1]]; [discriminate|].
    simpl. now apply IH.
Qed.

Lemma start_space (c : ascii) (stack : list frame) :
  isspace c = true ->
  start_value stack c = go Value stack \/
  start_value stack c = fail "Expecting value" 0.
Proof.
  intros Hc. apply isspace_cases in Hc as [Hc|Hc];
    [apply is_ws_cases in Hc|]; simpl in Hc;
    repeat (destruct Hc as [<-|Hc]; [auto|]); destruct Hc.
Qed.

Lemma decode_leading (pre : string) : forall s pos v,
  all_space pre = true ->
  decode Value [] pos (pre ++ s) = inr v ->
  decode Value [] (pos + String.length pre) s = inr v.
Proof.
  induction pre as [|c pre IH]; intros s pos v Hs H.
  - simpl. now rewrite Nat.add_0_r.
  - simpl in Hs. apply andb_true_iff in Hs as [Hc Hs].
    change (String c pre ++ s) with (String c (pre ++ s)) in H.
    unfold decode in H. simpl in H.
    destruct (start_space c [] Hc) as [E|E]; rewrite E in H; simpl in H;
      [|discriminate].
    simpl String.length. rewrite Nat.add_succ_r. now apply (IH s (S pos)).
Qed.

Lemma loads_ok (doc : string) (v : value) :
  loads doc = inr v <-> decode Value [] 0 doc = inr v.
Proof.
  unfold loads. destruct (decode Value [] 0 doc) as [[msg p]|w];
    split; intros H; try discriminate; injection H as ->; reflexivity.
Qed.

(** The text between the whitespace around a document that [loads]
    accepts is accepted too, with the same value. *)
Lemma decode_core (pre core post : string) (v : value) :
  all_space pre = true -> all_space post = true ->
  decode Value [] 0 (pre ++ core ++ post) = inr v ->
  decode Value [] 0 core = inr v.
Proof.
  intros Hpre Hpost H.
  apply decode_leading in H; [|assumption].
  rewrite decode_app in H.
  apply (decode_shift core _ _ (0 + String.length pre)).
  unfold decode.
  destruct (run Value [] (0 + String.length pre) core) as [e|[[m s] p]];
    [discriminate|].
  now apply (decode_trailing post).
Qed.

Theorem loads_strip (doc : string) (v : value) :
  loads doc = inr v -> loads (strip doc) = inr v.
Proof.
  rewrite !loads_ok. intros H.
  destruct (strip_split doc) as [pre [post [E [Hpre Hpost]]]].
  rewrite E in H. now apply (decode_core pre (strip doc) post).
Qed.

Theorem loads_no_fence (doc : string) (v : value) :
  loads doc = inr v -> startswith fence (strip doc) = false.
Proof.
  intros H. apply loads_strip in H. apply loads_ok in H.
  destruct (strip doc) as [|c s]; [reflexivity|].
  change (startswith fence (String c s))
    with (Ascii.eqb "`" c && startswith "``" s).
  destruct (Ascii.eqb "`" c) eqn:E; [|reflexivity].
  apply Ascii.eqb_eq in E. subst c.
  unfold decode in H. simpl in H. discriminate.
Qed.

(** ** The handler, step by step *)

Arguments build_analysis_prompt : simpl never.
Arguments strip : simpl never.
Arguments file_extension : simpl never.
Arguments str : simpl never.
Arguments decimal : simpl never.
Arguments len : simpl never.

Lemma blank_job (jobDescription : string) :
  negb (truthy jobDescription) || negb (truthy (strip jobDescription))
  = all_space jobDescription.
Proof.
  unfold truthy. rewrite !negb_involutive.
  destruct (all_space jobDescription) eqn:E.
  - apply strip_empty_iff in E. rewrite E. apply orb_true_r.
  - apply orb_false_iff. split.
    + destruct jobDescription; [discriminate E | reflexivity].
    + apply String.eqb_neq. intros H. apply strip_empty_iff in H. congruence.
Qed.

Lemma short_text (resume_text : string) :
  negb (truthy resume_text) || (len (strip resume_text) <? 50)%Z
  = (len (strip resume_text) <? 50)%Z.
Proof.
  destruct resume_text; [reflexivity|]. reflexivity.
Qed.

(** The three ways [analyze_with_gemini] ends once the service has
    answered. *)
Lemma gemini_parsed (resume_text job_description text : string) (v : value) :
  generate_content "gemini-flash-latest"
    (build_analysis_prompt resume_text job_description) = inr text ->
  json_loads (cleaned text) = inr v ->
  analyze_with_gemini resume_text job_description =
  ([Print "🤖 Calling Gemini AI...";
    GenerateContent "gemini-flash-latest"
      (build_analysis_prompt resume_text job_description);
    Print "✅ Analysis completed successfully"], inr v).
Proof.
  intros Hg Hj. unfold analyze_with_gemini. cbn. rewrite Hg, Hj. reflexivity.
Qed.

Lemma gemini_unparsed (resume_text job_description text msg doc : string)
    (pos : nat) :
  generate_content "gemini-flash-latest"
    (build_analysis_prompt resume_text job_description) = inr text ->
  json_loads (cleaned text) = inl (JSONDecodeError msg doc pos) ->
  analyze_with_gemini resume_text job_description =
  ([Print "🤖 Calling Gemini AI...";
    GenerateContent "gemini-flash-latest"
      (build_analysis_prompt resume_text job_description);
    Print ("❌ JSON parsing error: " ++ str (JSONDecodeError msg doc pos));
    Print ("Response text: " ++ cleaned text)],
   inl (parse_failure (JSONDecodeError msg doc pos))).
Proof.
  intros Hg Hj. unfold analyze_with_gemini. cbn. rewrite Hg, Hj. reflexivity.
Qed.


Lemma gemini_raises (resume_text job_description : string) (e : exc) :
  outcome (analyze_with_gemini resume_text job_description) = inl e ->
  exists detail, e = HTTPException 500 detail.
Proof.
  unfold analyze_with_gemini. cbn.
  destruct (generate_content _ _) as [e'|text]; cbn.
  - intros H. injection H as <-. eauto.
  - destruct (json_loads (cleaned text)) as [[msg doc pos|e']|v]; cbn;
      intros H; try discriminate; injection H as <-; unfold parse_failure;
      eauto.
Qed.


(** Extraction succeeds only for the two extensions, opens the file with
    one reader and calls nothing else. *)
Lemma extraction_extension (name : string) (content : bytes) (text : string) :
  outcome (extract_text_from_file name content) = inr text ->
  mem (file_extension name) ["pdf"; "docx"] = true.
Proof.
  unfold extract_text_from_file, mem. cbn.
  destruct (String.eqb (file_extension name) "pdf"); [reflexivity|].
  destruct (String.eqb (file_extension name) "docx"); [reflexivity|].
  discriminate.
Qed.


(** The handler once the request is valid, the upload is read and its text
    is extracted: the events so far, then the length check and the
    analysis. *)
Lemma handler_extracted (f : UploadFile) (jobDescription : string)
    (content : bytes) (te : list event) (text : string) :
  truthy_opt GEMINI_API_KEY = true ->
  all_space jobDescription = false ->
  read f = inr content ->
  extract_text_from_file (filename f) content = (te, inr text) ->
  analyze_resume f jobDescription =
  if (len (strip text) <? 50)%Z then
    (events_before_check f te,
     inl (HTTPException 400
            "Could not extract enough text from resume. Please ensure the file is not corrupted or password-protected."))
  else
    let pre :=
      (events_before_check f te
       ++ [Print ("✅ Extracted " ++ decimal (Z.to_nat (len text)) ++ " characters");
           Print "🤖 Analyzing with Gemini AI..."])%list in
    match analyze_with_gemini text jobDescription with
    | (tg, inr v) =>
        match render_error v with
        | None =>
            ((pre ++ tg ++ [Print "✅ Returning analysis results"])%list,
             inr {| status_code := 200; content := v |})
        | Some e =>
            ((pre ++ tg ++ [Print "✅ Returning analysis results";
                            Print ("❌ Unexpected error: " ++ e)])%list,
             inl (HTTPException 500 ("Internal server error: " ++ e)))
        end
    | (tg, inl (HTTPException s d)) => ((pre ++ tg)%list, inl (HTTPException s d))
    | (tg, inl (Raised e)) =>
        ((pre ++ tg ++ [Print ("❌ Unexpected error: " ++ str e)])%list,
         inl (HTTPException 500 ("Internal server error: " ++ str e)))
    end.
Proof.
  intros Hk Hj Hr He.
  pose proof (extraction_extension (filename f) content text) as Hx.
  rewrite He in Hx. specialize (Hx eq_refl).
  unfold analyze_resume. rewrite Hk, blank_job, Hj, Hx. cbn [negb file_truthy].
  rewrite Hr. cbn -[extract_text_from_file analyze_with_gemini Z.ltb].
  rewrite He. cbn -[analyze_with_gemini Z.ltb].
  rewrite short_text. unfold events_before_check.
  destruct (len (strip text) <? 50)%Z.
  - cbn. now rewrite !app_nil_r.
  - cbn -[analyze_with_gemini JSONResponse_init].
    unfold JSONResponse_init.
    destruct (analyze_with_gemini text jobDescription) as [tg [[s d|e]|v]];
      cbn; [| |destruct (render_error v) as [e|]; cbn];
      rewrite ?app_nil_r; repeat (rewrite <- app_assoc; cbn [app]);
      reflexivity.
Qed.

(** What the handler does before it touches the upload. *)
Lemma handler_unconfigured (f : UploadFile) (jobDescription : string) :
  truthy_opt GEMINI_API_KEY = false ->
  analyze_resume f jobDescription =
  ([], inl (HTTPException 500
              "Gemini API key not configured. Please add GEMINI_API_KEY to .env file")).
Proof. intros Hk. unfold analyze_resume. now rewrite Hk. Qed.

Lemma handler_blank_job (f : UploadFile) (jobDescription : string) :
  truthy_opt GEMINI_API_KEY = true ->
  all_space jobDescription = true ->
  analyze_resume f jobDescription =
  ([], inl (HTTPException 400 "Job description is required")).
Proof.
  intros Hk Hj. unfold analyze_resume. now rewrite Hk, blank_job, Hj.
Qed.

Lemma handler_bad_extension (f : UploadFile) (jobDescription : string) :
  truthy_opt GEMINI_API_KEY = true ->
  all_space jobDescription = false ->
  mem (file_extension (filename f)) ["pdf"; "docx"] = false ->
  analyze_resume f jobDescription =
  ([], inl (HTTPException 400 "Invalid file type. Allowed: pdf, docx")).
Proof.
  intros Hk Hj Hx. unfold analyze_resume. now rewrite Hk, blank_job, Hj, Hx.
Qed.

Lemma startswith_app (x b : string) : startswith x (x ++ b) = true.
Proof.
  induction x as [|c x IH]; [reflexivity|]. simpl.
  now rewrite Ascii.eqb_refl, IH.
Qed.

Lemma contains_start (x s : string) :
  startswith x s = true -> contains x s = true.
Proof. destruct s; simpl; intros ->; reflexivity. Qed.

Lemma contains_app (x a b : string) : contains x (a ++ x ++ b) = true.
Proof.
  induction a as [|c a IH].
  - change ("" ++ x ++ b) with (x ++ b). apply contains_start, startswith_app.
  - simpl. rewrite IH. apply orb_true_r.
Qed.

(** Names with and without a point. *)
Lemma extension_after_last_point (stem ext : string) :
  has_char "." ext = false ->
  file_extension (stem ++ "." ++ ext) = lower ext.
Proof.
  intros H. rewrite file_extension_last.
  change (stem ++ "." ++ ext) with (stem ++ String "." ext).
  rewrite split_app, (split_no_sep "." ext H), last_last. reflexivity.
Qed.

Lemma extension_without_point (name : string) :
  has_char "." name = false -> file_extension name = lower name.
Proof.
  intros H. rewrite file_extension_last, (split_no_sep "." name H). reflexivity.
Qed.

(** What [json.loads] is handed. *)
Lemma cleaned_fenced (j : string) : cleaned (fenced j) = j.
Proof.
  unfold cleaned, strip_fence. rewrite strip_fenced.
  change (startswith fence (fenced j)) with true. cbv iota.
  apply (middle_lines "```json" j "```"); reflexivity.
Qed.

Lemma cleaned_unfenced (text : string) :
  startswith fence (strip text) = false -> cleaned text = strip text.
Proof. intros H. unfold cleaned, strip_fence. now rewrite H. Qed.

Lemma cleaned_fence (text : string) :
  startswith fence (strip text) = true ->
  cleaned text = join nl (removelast (tl (split LF (strip text)))).
Proof.
  intros H. unfold cleaned, strip_fence. now rewrite H, slice_middle.
Qed.

(** A result of [analyze_with_gemini] is the value [json.loads] returned. *)
Lemma gemini_success (resume_text job_description : string) (v : value) :
  outcome (analyze_with_gemini resume_text job_description) = inr v ->
  exists text,
    generate_content "gemini-flash-latest"
      (build_analysis_prompt resume_text job_description) = inr text /\
    json_loads (cleaned text) = inr v.
Proof.
  unfold analyze_with_gemini. cbn.
  destruct (generate_content _ _) as [e|text]; cbn; [discriminate|].
  destruct (json_loads (cleaned text)) as [[msg doc pos|e]|w] eqn:E; cbn;
    try discriminate.
  intros H. injection H as ->. now exists text.
Qed.

(** A response of the handler comes from a request that passed every
    check. *)
Lemma handler_success (f : UploadFile) (jobDescription : string)
    (response : JSONResponse) :
  outcome (analyze_resume f jobDescription) = inr response ->
  exists file_content te resume_text,
    truthy_opt GEMINI_API_KEY = true /\
    all_space jobDescription = false /\
    read f = inr file_content /\
    extract_text_from_file (filename f) file_content = (te, inr resume_text) /\
    (50 <= len (strip resume_text))%Z /\
    status_code response = 200%Z /\
    outcome (analyze_with_gemini resume_text jobDescription)
    = inr (content response) /\
    render_error (content response) = None.
Proof.
  intros H.
  destruct (truthy_opt GEMINI_API_KEY) eqn:Hk;
    [|now rewrite handler_unconfigured in H].
  destruct (all_space jobDescription) eqn:Hj;
    [now rewrite handler_blank_job in H|].
  destruct (mem (file_extension (filename f)) ["pdf"; "docx"]) eqn:Hx;
    [|now rewrite handler_bad_extension in H].
  destruct (read f) as [e|file_content] eqn:Hr.
  - unfold analyze_resume in H. rewrite Hk, blank_job, Hj, Hx, Hr in H.
    discriminate H.
  - destruct (extract_text_from_file (filename f) file_content)
      as [te [e|resume_text]] eqn:He.
    + unfold analyze_resume in H. rewrite Hk, blank_job, Hj, Hx, Hr in H.
      cbn -[extract_text_from_file] in H. rewrite He in H.
      destruct e; discriminate H.
    + exists file_content, te, resume_text.
      rewrite (handler_extracted f jobDescription file_content te resume_text)
        in H by assumption.
      destruct (len (strip resume_text) <? 50)%Z eqn:Hl; [discriminate H|].
      apply Z.ltb_ge in Hl.
      destruct (analyze_with_gemini resume_text jobDescription)
        as [tg [[s d|e]|v]]; try discriminate H.
      destruct (render_error v) as [e|] eqn:Hv; [discriminate H|].
      injection H as <-. repeat split; auto.
Qed.


(** Once the request is valid and the upload is read, the reader library
    is called. *)
Lemma handler_read (f : UploadFile) (jobDescription : string) (file_content : bytes) :
  truthy_opt GEMINI_API_KEY = true ->
  all_space jobDescription = false ->
  mem (file_extension (filename f)) ["pdf"; "docx"] = true ->
  read f = inr file_content ->
  exists rest,
    trace (analyze_resume f jobDescription) =
    (events_before_check f
       (trace (extract_text_from_file (filename f) file_content)) ++ rest)%list.
Proof.
  intros Hk Hj Hx Hr.
  destruct (extract_text_from_file (filename f) file_content)
    as [te [e|resume_text]] eqn:He.
  - unfold analyze_resume. rewrite Hk, blank_job, Hj, Hx, Hr.
    cbn -[extract_text_from_file]. rewrite He. unfold events_before_check.
    destruct e; cbn; rewrite ?app_nil_r; eexists; cbn; f_equal; f_equal;
      f_equal; symmetry; apply app_nil_r || reflexivity.
  - rewrite (handler_extracted f jobDescription file_content te resume_text)
      by assumption.
    destruct (len (strip resume_text) <? 50)%Z.
    + exists []. cbn. now rewrite app_nil_r.
    + destruct (analyze_with_gemini resume_text jobDescription)
        as [tg [[s d|e]|v]]; [| |destruct (render_error v)];
        cbn [trace fst]; rewrite <- ?app_assoc; eauto.
Qed.

(** ** The claims *)

(** C1 (as amended).  A response the handler returns as success has status
    200 and, as its body, exactly the value [json.loads] returned for the
    trimmed and fence-stripped text of the Gemini response.  The service
    checks nothing about that value: the body has the shape of an analysis
    result if and only if the parsed value has it. *)
Theorem success_returns_parsed_value (f : UploadFile) (jobDescription : string)
    (response : JSONResponse) :
  outcome (analyze_resume f jobDescription) = inr response ->
  status_code response = 200%Z /\
  exists resume_text text v,
    generate_content "gemini-flash-latest"
      (build_analysis_prompt resume_text jobDescription) = inr text /\
    json_loads (cleaned text) = inr v /\
    content response = v /\
    (Shape.AnalysisResult (content response) = true <->
     Shape.AnalysisResult v = true).
Proof.
  intros H.
  destruct (handler_success f jobDescription response H)
    as [file_content [te [resume_text [_ [_ [_ [_ [_ [Hs [Hg _]]]]]]]]]].
  split; [exact Hs|].
  destruct (gemini_success resume_text jobDescription _ Hg) as [text [Ht Hv]].
  exists resume_text, text, (content response). repeat split; auto.
Qed.


(** C3.  When the key is not set, the handler fails every request with
    status 500 before it does anything else: the upload is not read and no
    reader is called; and the health check reports that Gemini is not
    configured. *)
Theorem missing_key_fails_fast (f : UploadFile) (jobDescription : string) :
  truthy_opt GEMINI_API_KEY = false ->
  outcome (analyze_resume f jobDescription)
  = inl (HTTPException 500
           "Gemini API key not configured. Please add GEMINI_API_KEY to .env file") /\
  count is_read (trace (analyze_resume f jobDescription)) = 0%nat /\
  count is_extraction (trace (analyze_resume f jobDescription)) = 0%nat /\
  count is_ai_call (trace (analyze_resume f jobDescription)) = 0%nat /\
  gemini_configured health_check = false.
Proof.
  intros Hk. rewrite (handler_unconfigured f jobDescription Hk).
  repeat split; try reflexivity. exact Hk.
Qed.


(** C6 (as amended).  For a file name whose extension is neither [pdf] nor
    [docx], [extract_text_from_file] fails with status 400 and a message
    that carries the extension and names PDF and DOCX; the handler, when
    the key is set and the job description is not blank, fails with status
    400 and the message [Invalid file type. Allowed: pdf, docx], which
    lists the two extensions and does not give the one of the file. *)
Theorem unsupported_extension_rejected (name : string) :
  mem (file_extension name) ["pdf"; "docx"] = false ->
  (forall file_content : bytes,
     exists detail,
       extract_text_from_file name file_content
       = ([], inl (HTTPException 400 detail)) /\
       detail = "Unsupported file format: " ++ file_extension name
                ++ ". Only PDF and DOCX are supported." /\
       contains (file_extension name) detail = true /\
       contains "PDF" detail = true /\ contains "DOCX" detail = true) /\
  (forall (f : UploadFile) (jobDescription : string),
     filename f = name ->
     truthy_opt GEMINI_API_KEY = true ->
     all_space jobDescription = false ->
     analyze_resume f jobDescription
     = ([], inl (HTTPException 400 "Invalid file type. Allowed: pdf, docx")) /\
     contains "pdf" "Invalid file type. Allowed: pdf, docx" = true /\
     contains "docx" "Invalid file type. Allowed: pdf, docx" = true).
Proof.
  intros Hx. split.
  - intros file_content. eexists. split; [|split; [reflexivity|]].
    + unfold extract_text_from_file. unfold mem in Hx. cbn in Hx.
      rewrite orb_false_r in Hx. apply orb_false_iff in Hx as [H1 H2].
      rewrite H1, H2. reflexivity.
    + split; [apply contains_app|]. split.
      * replace ("Unsupported file format: " ++ file_extension name
                 ++ ". Only PDF and DOCX are supported.")
          with (("Unsupported file format: " ++ file_extension name ++ ". Only ")
                ++ "PDF" ++ " and DOCX are supported.")
          by (now rewrite !append_assoc).
        apply contains_app.
      * replace ("Unsupported file format: " ++ file_extension name
                 ++ ". Only PDF and DOCX are supported.")
          with (("Unsupported file format: " ++ file_extension name
                 ++ ". Only PDF and ") ++ "DOCX" ++ " are supported.")
          by (now rewrite !append_assoc).
        apply contains_app.
  - intros f jobDescription <- Hk Hj.
    split; [now apply handler_bad_extension|]. split; reflexivity.
Qed.

(** C7 (as amended).  When the key is set, a request whose job description
    is empty or nothing but whitespace fails with status 400 and the message
    [Job description is required], and the handler has done nothing before:
    the upload is not read. *)
Theorem blank_job_description_rejected (f : UploadFile) (jobDescription : string) :
  truthy_opt GEMINI_API_KEY = true ->
  all_space jobDescription = true ->
  outcome (analyze_resume f jobDescription)
  = inl (HTTPException 400 "Job description is required") /\
  trace (analyze_resume f jobDescription) = [] /\
  count is_read (trace (analyze_resume f jobDescription)) = 0%nat.
Proof.
  intros Hk Hj. rewrite (handler_blank_job f jobDescription Hk Hj).
  repeat split.
Qed.

(** C8.  When the text of the Gemini response, trimmed and with its fence
    removed, is not JSON, [analyze_with_gemini] returns no value: it raises
    an [HTTPException] with status 500 whose detail is a fixed prefix
    followed by the message of the decoder.  The text of the response goes
    to the log and nowhere else; the handler passes the exception on as it
    is. *)
Theorem unparsable_response_fails (resume_text jobDescription text msg doc : string)
    (pos : nat) :
  generate_content "gemini-flash-latest"
    (build_analysis_prompt resume_text jobDescription) = inr text ->
  json_loads (cleaned text) = inl (JSONDecodeError msg doc pos) ->
  outcome (analyze_with_gemini resume_text jobDescription)
  = inl (HTTPException 500
           ("Failed to parse AI response as JSON: "
            ++ str (JSONDecodeError msg doc pos))) /\
  trace (analyze_with_gemini resume_text jobDescription)
  = [Print "🤖 Calling Gemini AI...";
     GenerateContent "gemini-flash-latest"
       (build_analysis_prompt resume_text jobDescription);
     Print ("❌ JSON parsing error: " ++ str (JSONDecodeError msg doc pos));
     Print ("Response text: " ++ cleaned text)] /\
  forall (f : UploadFile) (file_content : bytes) (te : list event),
    truthy_opt GEMINI_API_KEY = true ->
    all_space jobDescription = false ->
    read f = inr file_content ->
    extract_text_from_file (filename f) file_content = (te, inr resume_text) ->
    (50 <= len (strip resume_text))%Z ->
    outcome (analyze_resume f jobDescription)
    = inl (HTTPException 500
             ("Failed to parse AI response as JSON: "
              ++ str (JSONDecodeError msg doc pos))).
Proof.
  intros Hg Hj.
  pose proof (gemini_unparsed resume_text jobDescription text msg doc pos Hg Hj)
    as E.
  unfold parse_failure in E.
  split; [now rewrite E|]. split; [now rewrite E|].
  intros f file_content te Hk Hb Hr He Hl.
  rewrite (handler_extracted f jobDescription file_content te resume_text)
    by assumption.
  apply Z.ltb_ge in Hl. rewrite Hl, E. reflexivity.
Qed.

(** C9.  A response that begins with a fence loses its first and its last
    line, whatever the last line is.  So when the only fence is the opening
    one, the last line of the payload is dropped before [json.loads] sees
    the text: of a payload of several lines all but the last remain, of a
    payload of one line nothing remains. *)
Theorem leading_fence_drops_last_line :
  (forall raw : string,
     startswith fence raw = true ->
     cleaned raw = join nl (removelast (tl (split LF (strip raw))))) /\
  (forall payload last : string,
     has_char LF last = false -> all_space last = false ->
     cleaned (fence ++ "json" ++ nl ++ payload ++ nl ++ last) = payload) /\
  (forall j : string,
     has_char LF j = false ->
     cleaned (fence ++ "json" ++ nl ++ j) = "").
Proof.
  split; [|split].
  - intros raw H. apply cleaned_fence, fence_kept, H.
  - intros payload last Hl Hb.
    unfold cleaned, strip_fence.
    change (fence ++ "json" ++ nl ++ payload ++ nl ++ last)
      with ("```json" ++ nl ++ payload ++ nl ++ last).
    rewrite open_line_kept.
    rewrite <- (append_assoc payload), <- (append_assoc nl).
    rewrite rstrip_app by (now apply rstrip_not_blank).
    rewrite !append_assoc.
    change (startswith fence ("```json" ++ nl ++ payload ++ nl ++ rstrip last))
      with true. cbv iota.
    apply (middle_lines "```json" payload (rstrip last)); [reflexivity|].
    now apply has_char_rstrip.
  - intros j Hj. unfold cleaned, strip_fence.
    change (fence ++ "json" ++ nl ++ j) with ("```json" ++ String LF j).
    rewrite open_line_kept.
    change (startswith fence ("```json" ++ rstrip (String LF j))) with true.
    cbv iota. cbn [rstrip].
    pose proof (has_char_rstrip LF j Hj) as Hr.
    destruct (rstrip j) as [|c r] eqn:E.
    + reflexivity.
    + apply (no_middle_line "```json" (String c r)); [reflexivity | exact Hr].
Qed.

(** C10.  The extension is the piece after the last point of the file name
    in lower case; a name with no point is its own extension.  So a file
    named [pdf] or [docx], in any case of letters, passes the check of the
    handler and is handed to the reader of that format. *)
Theorem name_without_point_is_its_extension :
  (forall name : string,
     file_extension name = last (split "." (lower name)) "") /\
  (forall stem ext : string,
     has_char "." ext = false ->
     file_extension (stem ++ "." ++ ext) = lower ext) /\
  (forall name : string,
     has_char "." name = false -> file_extension name = lower name) /\
  (forall (f : UploadFile) (jobDescription : string) (file_content : bytes),
     has_char "." (filename f) = false ->
     truthy_opt GEMINI_API_KEY = true ->
     all_space jobDescription = false ->
     read f = inr file_content ->
     (lower (filename f) = "pdf" ->
      mem (file_extension (filename f)) ["pdf"; "docx"] = true /\
      extract_text_from_file (filename f) file_content
      = extract_text_from_pdf file_content /\
      In (PdfReader file_content) (trace (analyze_resume f jobDescription))) /\
     (lower (filename f) = "docx" ->
      mem (file_extension (filename f)) ["pdf"; "docx"] = true /\
      extract_text_from_file (filename f) file_content
      = extract_text_from_docx file_content /\
      In (Document file_content) (trace (analyze_resume f jobDescription)))).
Proof.
  split; [intros name; apply last_item_last|].
  split; [exact extension_after_last_point|].
  split; [exact extension_without_point|].
  intros f jobDescription file_content Hp Hk Hj Hr.
  pose proof (extension_without_point (filename f) Hp) as Hx.
  split; intros Hn; rewrite Hn in Hx.
  - assert (Hm : mem (file_extension (filename f)) ["pdf"; "docx"] = true)
      by now rewrite Hx.
    assert (He : extract_text_from_file (filename f) file_content
                 = extract_text_from_pdf file_content)
      by (unfold extract_text_from_file; now rewrite Hx).
    repeat split; try assumption.
    destruct (handler_read f jobDescription file_content Hk Hj Hm Hr)
      as [rest ->].
    rewrite He. unfold events_before_check, extract_text_from_pdf. cbn.
    destruct (pdf_pages file_content); cbn; tauto.
  - assert (Hm : mem (file_extension (filename f)) ["pdf"; "docx"] = true)
      by now rewrite Hx.
    assert (He : extract_text_from_file (filename f) file_content
                 = extract_text_from_docx file_content)
      by (unfold extract_text_from_file; now rewrite Hx).
    repeat split; try assumption.
    destruct (handler_read f jobDescription file_content Hk Hj Hm Hr)
      as [rest ->].
    rewrite He. unfold events_before_check, extract_text_from_docx. cbn.
    destruct (docx_paragraphs file_content); cbn; tauto.
Qed.

(** ** Errors *)

Lemma extraction_raises (name : string) (file_content : bytes) (e : exc) :
  outcome (extract_text_from_file name file_content) = inl e ->
  exists detail, e = HTTPException 400 detail.
Proof.
  unfold extract_text_from_file, extract_text_from_pdf, extract_text_from_docx.
  destruct (String.eqb (file_extension name) "pdf").
  - cbn. destruct (pdf_pages file_content); cbn; intros H;
      [injection H as <-; eauto | discriminate].
  - destruct (String.eqb (file_extension name) "docx").
    + cbn. destruct (docx_paragraphs file_content); cbn; intros H;
        [injection H as <-; eauto | discriminate].
    + cbn. intros H. injection H as <-. eauto.
Qed.

(** A reader that fails on the bytes makes the extraction fail with status
    400 and the cause in the message. *)
Theorem reader_failure_is_400 (file_content : bytes) (cause : string) :
  (pdf_pages file_content = inl cause ->
   extract_text_from_pdf file_content
   = ([PdfReader file_content],
      inl (HTTPException 400 ("Error extracting PDF: " ++ cause)))) /\
  (docx_paragraphs file_content = inl cause ->
   extract_text_from_docx file_content
   = ([Document file_content],
      inl (HTTPException 400 ("Error extracting DOCX: " ++ cause)))).
Proof.
  split; intros H.
  - unfold extract_text_from_pdf. cbn. now rewrite H.
  - unfold extract_text_from_docx. cbn. now rewrite H.
Qed.

(** A call to Gemini that fails makes [analyze_with_gemini] fail with status
    500 and the cause in the message; [json.loads] is not reached. *)
Theorem gemini_failure_is_500 (resume_text job_description cause : string) :
  generate_content "gemini-flash-latest"
    (build_analysis_prompt resume_text job_description) = inl cause ->
  analyze_with_gemini resume_text job_description
  = ([Print "🤖 Calling Gemini AI...";
      GenerateContent "gemini-flash-latest"
        (build_analysis_prompt resume_text job_description);
      Print ("❌ Gemini API error: " ++ cause)],
     inl (HTTPException 500 ("Error calling Gemini AI: " ++ cause))).
Proof.
  intros H. unfold analyze_with_gemini. cbn. now rewrite H.
Qed.

(** Whatever goes wrong, the handler raises an [HTTPException] with status
    400 or 500. *)
Theorem handler_raises_400_or_500 (f : UploadFile) (jobDescription : string)
    (e : exc) :
  outcome (analyze_resume f jobDescription) = inl e ->
  exists detail, e = HTTPException 400 detail \/ e = HTTPException 500 detail.
Proof.
  intros H.
  destruct (truthy_opt GEMINI_API_KEY) eqn:Hk;
    [|rewrite handler_unconfigured in H by assumption;
      injection H as <-; eauto].
  destruct (all_space jobDescription) eqn:Hj;
    [rewrite handler_blank_job in H by assumption; injection H as <-; eauto|].
  destruct (mem (file_extension (filename f)) ["pdf"; "docx"]) eqn:Hx;
    [|rewrite handler_bad_extension in H by assumption;
      injection H as <-; eauto].
  destruct (read f) as [cause|file_content] eqn:Hr.
  - unfold analyze_resume in H. rewrite Hk, blank_job, Hj, Hx, Hr in H.
    cbn in H. injection H as <-. eauto.
  - destruct (extract_text_from_file (filename f) file_content)
      as [te [e'|resume_text]] eqn:He.
    + destruct (extraction_raises (filename f) file_content e') as [d ->];
        [now rewrite He|].
      unfold analyze_resume in H. rewrite Hk, blank_job, Hj, Hx, Hr in H.
      cbn -[extract_text_from_file] in H. rewrite He in H.
      cbn in H. injection H as <-. eauto.
    + rewrite (handler_extracted f jobDescription file_content te resume_text)
        in H by assumption.
      destruct (len (strip resume_text) <? 50)%Z;
        [injection H as <-; eauto|].
      pose proof (gemini_raises resume_text jobDescription) as Hg.
      destruct (analyze_with_gemini resume_text jobDescription)
        as [tg [[s d|e']|v]].
      * destruct (Hg _ eq_refl) as [d' Hd]. injection Hd as -> ->.
        injection H as <-. eauto.
      * destruct (Hg _ eq_refl) as [d' Hd]. discriminate Hd.
      * destruct (render_error v); [injection H as <-; eauto | discriminate H].
Qed.

(** ** More on texts *)

Lemma append_nil_r (s : string) : s ++ "" = s.
Proof. induction s as [|c s IH]; simpl; [reflexivity | now rewrite IH]. Qed.

Lemma rstrip_app_space (s post : string) :
  all_space post = true -> rstrip (s ++ post) = rstrip s.
Proof.
  intros Hpost. induction s as [|c s IH]; simpl.
  - now apply rstrip_all_space.
  - now rewrite IH.
Qed.

Lemma lstrip_app_space (pre s : string) :
  all_space pre = true -> lstrip (pre ++ s) = lstrip s.
Proof.
  induction pre as [|c pre IH]; simpl; intros H; [reflexivity|].
  apply andb_true_iff in H as [Hc Hpre]. rewrite Hc. now apply IH.
Qed.

Lemma lstrip_idem (s : string) : lstrip (lstrip s) = lstrip s.
Proof.
  induction s as [|c s IH]; simpl; [reflexivity|].
  destruct (isspace c) eqn:Hc; [exact IH|].
  simpl. now rewrite Hc.
Qed.

Lemma rstrip_idem (s : string) : rstrip (rstrip s) = rstrip s.
Proof.
  induction s as [|c s IH]; simpl; [reflexivity|].
  destruct (rstrip s) as [|d r] eqn:Hr.
  - destruct (isspace c) eqn:Hc; simpl; [reflexivity | now rewrite Hc].
  - change (rstrip (String c (String d r))) with
      (match rstrip (String d r) with
       | EmptyString => if isspace c then EmptyString else String c EmptyString
       | r' => String c r'
       end).
    now rewrite IH.
Qed.

Lemma rstrip_lstrip (s : string) :
  rstrip s = s -> rstrip (lstrip s) = lstrip s.
Proof.
  induction s as [|c s IH]; simpl; [reflexivity|].
  intros H. destruct (isspace c) eqn:Hc.
  - apply IH. destruct (rstrip s) as [|d r] eqn:Hr.
    + discriminate H.
    + now injection H.
  - simpl. rewrite Hc. exact H.
Qed.

Lemma strip_idem (s : string) : strip (strip s) = strip s.
Proof.
  unfold strip.
  rewrite (rstrip_lstrip (rstrip s)) by apply rstrip_idem.
  apply lstrip_idem.
Qed.

Lemma strip_margins (pre s post : string) :
  all_space pre = true -> all_space post = true ->
  strip (pre ++ s ++ post) = strip s.
Proof.
  intros Hpre Hpost. destruct (all_space s) eqn:Hs.
  - assert (H : all_space (pre ++ s ++ post) = true)
      by now rewrite !all_space_app, Hpre, Hs, Hpost.
    apply strip_empty_iff in H. rewrite H. symmetry. now apply strip_empty_iff.
  - unfold strip. rewrite <- append_assoc, rstrip_app_space by exact Hpost.
    rewrite rstrip_app by now apply rstrip_not_blank.
    now apply lstrip_app_space.
Qed.

(** The loop of the two readers: every text followed by a line feed. *)
Lemma fold_join (pages : list string) (acc : string) :
  fold_left (fun text page => text ++ page ++ nl) pages acc
  = acc ++ join nl pages ++ match pages with [] => "" | _ => nl end.
Proof.
  revert acc. induction pages as [|p ps IH]; intros acc.
  - simpl. now rewrite append_nil_r.
  - cbn [fold_left]. rewrite IH. destruct ps as [|q r].
    + simpl. now rewrite ?append_nil_r, ?append_assoc.
    + change (join nl (p :: q :: r)) with (p ++ nl ++ join nl (q :: r)).
      now rewrite !append_assoc.
Qed.

Lemma strip_pages (pages : list string) :
  strip (fold_left (fun text page => text ++ page ++ nl) pages "")
  = strip (join nl pages).
Proof.
  rewrite fold_join.
  change ("" ++ join nl pages ++ match pages with [] => "" | _ => nl end)
    with ("" ++ join nl pages ++ match pages with [] => "" | _ => nl end).
  apply (strip_margins "" (join nl pages)); [reflexivity|].
  now destruct pages.
Qed.

Lemma all_space_join (pages : list string) :
  forallb all_space pages = true -> all_space (join nl pages) = true.
Proof.
  induction pages as [|p ps IH]; [reflexivity|].
  cbn [forallb]. intros H. apply andb_true_iff in H as [Hp Hps].
  destruct ps as [|q r]; [exact Hp|].
  change (join nl (p :: q :: r)) with (p ++ nl ++ join nl (q :: r)).
  rewrite !all_space_app, Hp, (IH Hps). reflexivity.
Qed.

Lemma lower_char_idem (c : ascii) : lower_char (lower_char c) = lower_char c.
Proof. destruct c as [[] [] [] [] [] [] [] []]; reflexivity. Qed.

Lemma lower_idem (s : string) : lower (lower s) = lower s.
Proof.
  induction s as [|c s IH]; simpl; [reflexivity|].
  now rewrite lower_char_idem, IH.
Qed.

(** ** More on the service *)

Lemma calls_app (a b : list event) : calls (a ++ b) = (calls a ++ calls b)%list.
Proof. apply filter_app. Qed.

Lemma gemini_calls (resume_text job_description : string) :
  calls (trace (analyze_with_gemini resume_text job_description))
  = [GenerateContent "gemini-flash-latest"
       (build_analysis_prompt resume_text job_description)].
Proof.
  unfold analyze_with_gemini, gemini_api_error.
  destruct (generate_content _ _) as [e|text]; [reflexivity|].
  destruct (json_loads _) as [[msg doc pos|e]|v]; reflexivity.
Qed.

(** The two ways [analyze_with_gemini] fails. *)
Lemma gemini_error_detail (resume_text job_description : string) (e : exc) :
  outcome (analyze_with_gemini resume_text job_description) = inl e ->
  (exists cause, e = HTTPException 500 ("Error calling Gemini AI: " ++ cause)) \/
  (exists cause,
     e = HTTPException 500 ("Failed to parse AI response as JSON: " ++ cause)).
Proof.
  unfold analyze_with_gemini, gemini_api_error, parse_failure.
  destruct (generate_content _ _) as [c|text].
  - cbn. intros H. injection H as <-. left. now exists c.
  - destruct (json_loads _) as [[msg doc pos|c]|v]; cbn; intros H;
      try discriminate H; injection H as <-; [right|left]; eauto.
Qed.

(** With an extension the handler allows, the extraction opens the upload
    with exactly one reader, and fails only when that reader fails. *)
Lemma extraction_allowed (name : string) (file_content : bytes) :
  mem (file_extension name) ["pdf"; "docx"] = true ->
  (file_extension name = "pdf" /\
   extract_text_from_file name file_content = extract_text_from_pdf file_content) \/
  (file_extension name = "docx" /\
   extract_text_from_file name file_content = extract_text_from_docx file_content).
Proof.
  unfold mem, extract_text_from_file. cbn [existsb].
  destruct (String.eqb (file_extension name) "pdf") eqn:Hp.
  - intros _. left. split; [now apply String.eqb_eq | reflexivity].
  - destruct (String.eqb (file_extension name) "docx") eqn:Hd.
    + intros _. right. split; [now apply String.eqb_eq | reflexivity].
    + discriminate.
Qed.

Lemma extraction_calls (name : string) (file_content : bytes) :
  mem (file_extension name) ["pdf"; "docx"] = true ->
  trace (extract_text_from_file name file_content)
  = [if String.eqb (file_extension name) "pdf" then PdfReader file_content
     else Document file_content].
Proof.
  intros Hx.
  destruct (extraction_allowed name file_content Hx) as [[Hn ->]|[Hn ->]];
    rewrite Hn; cbn [String.eqb Ascii.eqb Bool.eqb];
    [unfold extract_text_from_pdf; destruct (pdf_pages file_content)
    |unfold extract_text_from_docx; destruct (docx_paragraphs file_content)];
    reflexivity.
Qed.

Lemma extraction_error_detail (name : string) (file_content : bytes) (e : exc) :
  mem (file_extension name) ["pdf"; "docx"] = true ->
  outcome (extract_text_from_file name file_content) = inl e ->
  (exists cause, e = HTTPException 400 ("Error extracting PDF: " ++ cause)) \/
  (exists cause, e = HTTPException 400 ("Error extracting DOCX: " ++ cause)).
Proof.
  intros Hx.
  destruct (extraction_allowed name file_content Hx) as [[_ ->]|[_ ->]];
    [unfold extract_text_from_pdf; destruct (pdf_pages file_content) as [c|pages]
    |unfold extract_text_from_docx;
     destruct (docx_paragraphs file_content) as [c|pages]];
    cbn; intros H; try discriminate H; injection H as <-; eauto.
Qed.

(** The handler when the upload cannot be read. *)
Lemma handler_read_failed (f : UploadFile) (jobDescription cause : string) :
  truthy_opt GEMINI_API_KEY = true ->
  all_space jobDescription = false ->
  mem (file_extension (filename f)) ["pdf"; "docx"] = true ->
  read f = inl cause ->
  analyze_resume f jobDescription
  = ([Print ("📄 Reading file: " ++ filename f); ReadFile (filename f);
      Print ("❌ Unexpected error: " ++ cause)],
     inl (HTTPException 500 ("Internal server error: " ++ cause))).
Proof.
  intros Hk Hj Hx Hr. unfold analyze_resume.
  rewrite Hk, blank_job, Hj, Hx, Hr. reflexivity.
Qed.

(** The handler when the extraction raises. *)
Lemma handler_extraction_failed (f : UploadFile) (jobDescription : string)
    (file_content : bytes) (te : list event) (e : exc) :
  truthy_opt GEMINI_API_KEY = true ->
  all_space jobDescription = false ->
  mem (file_extension (filename f)) ["pdf"; "docx"] = true ->
  read f = inr file_content ->
  extract_text_from_file (filename f) file_content = (te, inl e) ->
  analyze_resume f jobDescription = (events_before_check f te, inl e).
Proof.
  intros Hk Hj Hx Hr He.
  destruct (extraction_raises (filename f) file_content e) as [d ->];
    [now rewrite He|].
  unfold analyze_resume. rewrite Hk, blank_job, Hj, Hx, Hr.
  cbn -[extract_text_from_file]. rewrite He. unfold events_before_check.
  cbn. now rewrite !app_nil_r.
Qed.

Lemma extraction_by_extension (name name' : string) (file_content : bytes) :
  file_extension name = file_extension name' ->
  extract_text_from_file name file_content
  = extract_text_from_file name' file_content.
Proof. intros H. unfold extract_text_from_file. now rewrite H. Qed.

(** The prompt, cut at its two holes. *)
Lemma prompt_parts (resume_text job_description : string) :
  build_analysis_prompt resume_text job_description
  = prompt_head ++ resume_text ++ prompt_middle ++ job_description ++ prompt_tail.
Proof.
  unfold build_analysis_prompt, prompt_lines, prompt_head, prompt_middle,
    prompt_tail.
  cbn [map String.concat skipn].
  rewrite !append_assoc. reflexivity.
Qed.

Lemma calls_before_check (f : UploadFile) (te : list event) :
  calls (events_before_check f te) = ReadFile (filename f) :: calls te.
Proof. reflexivity. Qed.

Lemma count_calls (p : event -> bool) (t : list event) :
  (forall line, p (Print line) = false) -> count p (calls t) = count p t.
Proof.
  intros Hp. unfold count, calls. induction t as [|ev t IH]; [reflexivity|].
  destruct ev; cbn; rewrite ?Hp; cbn; rewrite ?IH; try reflexivity;
    destruct (p _); cbn; now rewrite IH.
Qed.

(** The errors of the handler, with what brings the first two about. *)
Lemma handler_error_cases (f : UploadFile) (jobDescription : string) (e : exc) :
  outcome (analyze_resume f jobDescription) = inl e ->
  (truthy_opt GEMINI_API_KEY = false /\
   e = HTTPException 500
         "Gemini API key not configured. Please add GEMINI_API_KEY to .env file") \/
  (all_space jobDescription = true /\
   e = HTTPException 400 "Job description is required") \/
  e = HTTPException 400 "Invalid file type. Allowed: pdf, docx" \/
  (exists cause, e = HTTPException 500 ("Internal server error: " ++ cause)) \/
  (exists cause, e = HTTPException 400 ("Error extracting PDF: " ++ cause)) \/
  (exists cause, e = HTTPException 400 ("Error extracting DOCX: " ++ cause)) \/
  e = HTTPException 400
        "Could not extract enough text from resume. Please ensure the file is not corrupted or password-protected." \/
  (exists cause, e = HTTPException 500 ("Error calling Gemini AI: " ++ cause)) \/
  (exists cause,
     e = HTTPException 500 ("Failed to parse AI response as JSON: " ++ cause)).
Proof.
  intros H.
  destruct (truthy_opt GEMINI_API_KEY) eqn:Hk;
    [|rewrite handler_unconfigured in H by assumption;
      injection H as <-; tauto].
  destruct (all_space jobDescription) eqn:Hj;
    [rewrite handler_blank_job in H by assumption; injection H as <-; tauto|].
  destruct (mem (file_extension (filename f)) ["pdf"; "docx"]) eqn:Hx;
    [|rewrite handler_bad_extension in H by assumption;
      injection H as <-; tauto].
  destruct (read f) as [cause|file_content] eqn:Hr.
  - rewrite (handler_read_failed f jobDescription cause) in H by assumption.
    injection H as <-. do 3 right. left. now exists cause.
  - destruct (extract_text_from_file (filename f) file_content)
      as [te [e'|resume_text]] eqn:He.
    + rewrite (handler_extraction_failed f jobDescription file_content te e')
        in H by assumption.
      injection H as <-.
      destruct (extraction_error_detail (filename f) file_content e' Hx)
        as [Hd|Hd]; [now rewrite He|tauto|tauto].
    + rewrite (handler_extracted f jobDescription file_content te resume_text)
        in H by assumption.
      destruct (len (strip resume_text) <? 50)%Z;
        [injection H as <-; tauto|].
      pose proof (gemini_error_detail resume_text jobDescription) as Hg.
      destruct (analyze_with_gemini resume_text jobDescription)
        as [tg [[s d|e']|v]].
      * injection H as <-. destruct (Hg _ eq_refl) as [Hd|Hd]; tauto.
      * destruct (Hg _ eq_refl) as [[c Hd]|[c Hd]]; discriminate Hd.
      * destruct (render_error v) as [c|]; [|discriminate H].
        injection H as <-. do 3 right. left. now exists c.
Qed.

(** ** Further properties of the service *)

(** X4.  When its reader library succeeds, [extract_text_from_pdf] opens
    the bytes once and returns the texts of the pages joined by line feeds
    and trimmed; [extract_text_from_docx] does the same with the texts of
    the paragraphs.  The line feed the loop appends after the last text is
    trimmed away, and a document with no page gives the empty text. *)
Theorem extracted_text_is_joined_pages (file_content : bytes)
    (pages : list string) :
  (pdf_pages file_content = inr pages ->
   extract_text_from_pdf file_content
   = ([PdfReader file_content], inr (strip (join nl pages)))) /\
  (docx_paragraphs file_content = inr pages ->
   extract_text_from_docx file_content
   = ([Document file_content], inr (strip (join nl pages)))).
Proof.
  split; intros H;
    [unfold extract_text_from_pdf | unfold extract_text_from_docx];
    rewrite H; cbn -[strip]; now rewrite strip_pages.
Qed.

(** X5.  A text that [extract_text_from_file] returns is trimmed already:
    trimming it again changes nothing.  So the length the handler checks
    against 50 is the length of the very text it sends on. *)
Theorem extracted_text_is_trimmed (name : string) (file_content : bytes)
    (text : string) :
  outcome (extract_text_from_file name file_content) = inr text ->
  strip text = text /\ len (strip text) = len text.
Proof.
  intros H. assert (Hs : strip text = text); [|now rewrite Hs].
  unfold extract_text_from_file in H.
  destruct (String.eqb (file_extension name) "pdf").
  - unfold extract_text_from_pdf in H.
    destruct (pdf_pages file_content) as [c|pages]; [discriminate H|].
    cbn -[strip] in H. injection H as <-. apply strip_idem.
  - destruct (String.eqb (file_extension name) "docx"); [|discriminate H].
    unfold extract_text_from_docx in H.
    destruct (docx_paragraphs file_content) as [c|pages]; [discriminate H|].
    cbn -[strip] in H. injection H as <-. apply strip_idem.
Qed.

(** X6.  A document whose pages (paragraphs) hold nothing but whitespace,
    and a document with no page at all, is rejected with status 400 and
    the message about text that could not be extracted, right after the
    reader call: the Gemini service is not called. *)
Theorem blank_document_is_rejected (f : UploadFile) (jobDescription : string)
    (file_content : bytes) (pages : list string) :
  truthy_opt GEMINI_API_KEY = true ->
  all_space jobDescription = false ->
  read f = inr file_content ->
  forallb all_space pages = true ->
  (file_extension (filename f) = "pdf" /\ pdf_pages file_content = inr pages) \/
  (file_extension (filename f) = "docx" /\
   docx_paragraphs file_content = inr pages) ->
  analyze_resume f jobDescription
  = (events_before_check f [opened (filename f) file_content],
     inl (HTTPException 400
            "Could not extract enough text from resume. Please ensure the file is not corrupted or password-protected.")) /\
  count is_ai_call (trace (analyze_resume f jobDescription)) = 0%nat.
Proof.
  intros Hk Hj Hr Hb Hx.
  assert (He : extract_text_from_file (filename f) file_content
               = ([opened (filename f) file_content], inr "")).
  { assert (Hs : strip (join nl pages) = "")
      by now apply strip_empty_iff, all_space_join.
    unfold extract_text_from_file, opened.
    destruct Hx as [[-> Hp]|[-> Hp]]; cbn [String.eqb Ascii.eqb Bool.eqb];
      [unfold extract_text_from_pdf | unfold extract_text_from_docx];
      rewrite Hp; cbn -[strip]; now rewrite strip_pages, Hs. }
  rewrite (handler_extracted f jobDescription file_content _ "" Hk Hj Hr He).
  change (len (strip "") <? 50)%Z with true. cbv iota.
  split; [reflexivity|]. unfold opened.
  destruct (String.eqb (file_extension (filename f)) "pdf"); reflexivity.
Qed.

(** X7.  The case of the letters of a file name plays no part: its
    extension is that of the name in lower case, and two uploads with the
    same bytes whose names have the same extension get the same answer
    from the handler, whatever stands before the last point. *)
Theorem extension_case_is_ignored :
  (forall name : string, file_extension (lower name) = file_extension name) /\
  (forall (name name' : string) (content : string + bytes)
          (jobDescription : string),
     file_extension name = file_extension name' ->
     outcome (analyze_resume {| filename := name; read := content |}
                jobDescription)
     = outcome (analyze_resume {| filename := name'; read := content |}
                  jobDescription)).
Proof.
  split.
  - intros name. unfold file_extension. now rewrite lower_idem.
  - intros name name' content jobDescription Hn.
    set (f := {| filename := name; read := content |}).
    set (f' := {| filename := name'; read := content |}).
    destruct (truthy_opt GEMINI_API_KEY) eqn:Hk;
      [|now rewrite !handler_unconfigured].
    destruct (all_space jobDescription) eqn:Hj;
      [now rewrite !handler_blank_job|].
    destruct (mem (file_extension name) ["pdf"; "docx"]) eqn:Hx.
    + assert (Hx' : mem (file_extension name') ["pdf"; "docx"] = true)
        by now rewrite <- Hn.
      destruct content as [cause|file_content].
      * now rewrite (handler_read_failed f jobDescription cause),
          (handler_read_failed f' jobDescription cause).
      * pose proof (extraction_by_extension name name' file_content Hn) as Hy.
        destruct (extract_text_from_file name file_content)
          as [te [e|text]] eqn:He; symmetry in Hy.
        -- now rewrite
             (handler_extraction_failed f jobDescription file_content te e),
             (handler_extraction_failed f' jobDescription file_content te e).
        -- rewrite (handler_extracted f jobDescription file_content te text),
             (handler_extracted f' jobDescription file_content te text)
             by (assumption || reflexivity).
           destruct (len (strip text) <? 50)%Z; [reflexivity|].
           destruct (analyze_with_gemini text jobDescription)
             as [tg [[s d|e]|v]]; [| |destruct (render_error v)];
             reflexivity.
    + assert (Hx' : mem (file_extension name') ["pdf"; "docx"] = false)
        by now rewrite <- Hn.
      now rewrite (handler_bad_extension f), (handler_bad_extension f').
Qed.

(** X8.  The errors of the handler, all of them: every exception that
    [analyze_resume] raises is one of the nine below, with the status
    shown.  Two messages of the source never leave the handler: the one
    for a missing resume file (an upload object is never false) and the
    one of [extract_text_from_file] for an unsupported format (the handler
    has rejected the extension before it calls the function). *)
Theorem handler_error_catalogue (f : UploadFile) (jobDescription : string)
    (e : exc) :
  outcome (analyze_resume f jobDescription) = inl e ->
  (e = HTTPException 500
         "Gemini API key not configured. Please add GEMINI_API_KEY to .env file" \/
   e = HTTPException 400 "Job description is required" \/
   e = HTTPException 400 "Invalid file type. Allowed: pdf, docx" \/
   (exists cause, e = HTTPException 500 ("Internal server error: " ++ cause)) \/
   (exists cause, e = HTTPException 400 ("Error extracting PDF: " ++ cause)) \/
   (exists cause, e = HTTPException 400 ("Error extracting DOCX: " ++ cause)) \/
   e = HTTPException 400
         "Could not extract enough text from resume. Please ensure the file is not corrupted or password-protected." \/
   (exists cause, e = HTTPException 500 ("Error calling Gemini AI: " ++ cause)) \/
   (exists cause,
      e = HTTPException 500 ("Failed to parse AI response as JSON: " ++ cause))) /\
  e <> HTTPException 400 "Resume file is required" /\
  (forall (status : Z) (detail : string),
     e = HTTPException status detail ->
     startswith "Unsupported file format" detail = false).
Proof.
  intros H.
  assert (Hcat := handler_error_cases f jobDescription e H).
  assert (Hcat' :
    e = HTTPException 500
          "Gemini API key not configured. Please add GEMINI_API_KEY to .env file" \/
    e = HTTPException 400 "Job description is required" \/
    e = HTTPException 400 "Invalid file type. Allowed: pdf, docx" \/
    (exists cause, e = HTTPException 500 ("Internal server error: " ++ cause)) \/
    (exists cause, e = HTTPException 400 ("Error extracting PDF: " ++ cause)) \/
    (exists cause, e = HTTPException 400 ("Error extracting DOCX: " ++ cause)) \/
    e = HTTPException 400
          "Could not extract enough text from resume. Please ensure the file is not corrupted or password-protected." \/
    (exists cause, e = HTTPException 500 ("Error calling Gemini AI: " ++ cause)) \/
    (exists cause,
       e = HTTPException 500 ("Failed to parse AI response as JSON: " ++ cause)))
    by tauto.
  clear Hcat. rename Hcat' into Hcat.
  split; [exact Hcat|].
  split.
  - intros ->.
    destruct Hcat as [Hc|[Hc|[Hc|[[c Hc]|[[c Hc]|[[c Hc]|[Hc|[[c Hc]|[c Hc]]]]]]]]];
      discriminate Hc.
  - intros status detail ->.
    destruct Hcat as [Hc|[Hc|[Hc|[[c Hc]|[[c Hc]|[[c Hc]|[Hc|[[c Hc]|[c Hc]]]]]]]]];
      injection Hc as _ ->; reflexivity.
Qed.

(** X9.  An error of the reader library reaches the client unchanged: with
    a valid request, what [extract_text_from_file] raises is what the
    handler raises (status 400, not the 500 of its catch-all clause); the
    upload has been read and opened once, and the Gemini service is not
    called. *)
Theorem extraction_error_passes_through (f : UploadFile)
    (jobDescription : string) (file_content : bytes) (e : exc) :
  truthy_opt GEMINI_API_KEY = true ->
  all_space jobDescription = false ->
  mem (file_extension (filename f)) ["pdf"; "docx"] = true ->
  read f = inr file_content ->
  outcome (extract_text_from_file (filename f) file_content) = inl e ->
  outcome (analyze_resume f jobDescription) = inl e /\
  (exists cause,
     e = HTTPException 400 ("Error extracting PDF: " ++ cause) \/
     e = HTTPException 400 ("Error extracting DOCX: " ++ cause)) /\
  calls (trace (analyze_resume f jobDescription))
  = [ReadFile (filename f); opened (filename f) file_content].
Proof.
  intros Hk Hj Hx Hr He.
  pose proof (extraction_calls (filename f) file_content Hx) as Ht.
  pose proof (extraction_error_detail (filename f) file_content e Hx He) as Hd.
  destruct (extract_text_from_file (filename f) file_content) as [te r] eqn:Hy.
  cbn [outcome snd] in He. cbn [trace fst] in Ht. subst r te.
  rewrite (handler_extraction_failed f jobDescription file_content _ e Hk Hj Hx Hr Hy).
  split; [reflexivity|]. split.
  - destruct Hd as [[c ->]|[c ->]]; exists c; [left|right]; reflexivity.
  - cbn [trace fst]. rewrite calls_before_check. unfold opened.
    destruct (String.eqb (file_extension (filename f)) "pdf"); reflexivity.
Qed.

(** X10.  When the upload cannot be read, a valid request ends with status
    500 and the message of the cause after [Internal server error: ]; no
    reader library is called and the Gemini service is not called. *)
Theorem upload_read_failure_is_500 (f : UploadFile) (jobDescription cause : string) :
  truthy_opt GEMINI_API_KEY = true ->
  all_space jobDescription = false ->
  mem (file_extension (filename f)) ["pdf"; "docx"] = true ->
  read f = inl cause ->
  analyze_resume f jobDescription
  = ([Print ("📄 Reading file: " ++ filename f); ReadFile (filename f);
      Print ("❌ Unexpected error: " ++ cause)],
     inl (HTTPException 500 ("Internal server error: " ++ cause))) /\
  calls (trace (analyze_resume f jobDescription)) = [ReadFile (filename f)].
Proof.
  intros Hk Hj Hx Hr.
  rewrite (handler_read_failed f jobDescription cause) by assumption.
  split; reflexivity.
Qed.

(** X11.  A request makes at most three calls, each at most once and in
    this order: it reads the upload, opens the bytes with the reader of the
    extension, and calls the Gemini service with the prompt built from the
    extracted text and the job description as received.  Nothing is
    retried. *)
Theorem handler_calls_in_order (f : UploadFile) (jobDescription : string) :
  calls (trace (analyze_resume f jobDescription)) = [] \/
  calls (trace (analyze_resume f jobDescription)) = [ReadFile (filename f)] \/
  (exists file_content,
     read f = inr file_content /\
     calls (trace (analyze_resume f jobDescription))
     = [ReadFile (filename f); opened (filename f) file_content]) \/
  (exists file_content resume_text,
     read f = inr file_content /\
     outcome (extract_text_from_file (filename f) file_content)
     = inr resume_text /\
     calls (trace (analyze_resume f jobDescription))
     = [ReadFile (filename f); opened (filename f) file_content;
        GenerateContent "gemini-flash-latest"
          (build_analysis_prompt resume_text jobDescription)]).
Proof.
  destruct (truthy_opt GEMINI_API_KEY) eqn:Hk;
    [|left; now rewrite handler_unconfigured].
  destruct (all_space jobDescription) eqn:Hj;
    [left; now rewrite handler_blank_job|].
  destruct (mem (file_extension (filename f)) ["pdf"; "docx"]) eqn:Hx;
    [|left; now rewrite handler_bad_extension].
  destruct (read f) as [cause|file_content] eqn:Hr.
  { right; left. now rewrite (handler_read_failed f jobDescription cause). }
  pose proof (extraction_calls (filename f) file_content Hx) as Ht.
  fold (opened (filename f) file_content) in Ht.
  destruct (extract_text_from_file (filename f) file_content)
    as [te [e|resume_text]] eqn:He; cbn [trace fst] in Ht; subst te.
  - right; right; left. exists file_content. split; [reflexivity|].
    rewrite (handler_extraction_failed f jobDescription file_content _ e
               Hk Hj Hx Hr He).
    cbn [trace fst]. rewrite calls_before_check. f_equal.
    unfold opened, calls.
    destruct (String.eqb (file_extension (filename f)) "pdf"); reflexivity.
  - rewrite (handler_extracted f jobDescription file_content _ resume_text
               Hk Hj Hr He).
    assert (Ho : calls [opened (filename f) file_content]
                 = [opened (filename f) file_content])
      by (unfold opened;
          destruct (String.eqb (file_extension (filename f)) "pdf");
          reflexivity).
    destruct (len (strip resume_text) <? 50)%Z.
    + right; right; left. exists file_content. split; [reflexivity|].
      cbn [trace fst]. now rewrite calls_before_check, Ho.
    + right; right; right. exists file_content, resume_text.
      split; [reflexivity|]. split; [now rewrite He|].
      pose proof (gemini_calls resume_text jobDescription) as Hg.
      destruct (analyze_with_gemini resume_text jobDescription)
        as [tg [[s d|e]|v]]; [| |destruct (render_error v)];
        cbn [trace fst] in Hg |- *;
        rewrite !calls_app, calls_before_check, Ho, Hg; reflexivity.
Qed.

(** X12.  The Gemini service is called only with a configured client: a
    run of the handler that calls the service happens in a module whose
    loading called [genai.configure] with the key, and [health_check]
    reports [gemini_configured] exactly when loading did so. *)
Theorem gemini_needs_configuration :
  (forall (f : UploadFile) (jobDescription : string),
     count is_ai_call (trace (analyze_resume f jobDescription)) <> 0%nat ->
     exists api_key,
       GEMINI_API_KEY = Some api_key /\ api_key <> "" /\
       In (Configure api_key) configure_gemini) /\
  (gemini_configured health_check = true <->
   exists api_key, In (Configure api_key) configure_gemini).
Proof.
  unfold configure_gemini, health_check. cbn [gemini_configured].
  split.
  - intros f jobDescription H.
    destruct (truthy_opt GEMINI_API_KEY) eqn:Hk;
      [|rewrite handler_unconfigured in H by assumption; now elim H].
    destruct GEMINI_API_KEY as [k|]; [|discriminate Hk].
    cbn in Hk. exists k. rewrite Hk. cbn.
    split; [reflexivity|]. split; [|now left].
    intros ->. discriminate Hk.
  - destruct GEMINI_API_KEY as [k|]; cbn.
    + destruct (truthy k); cbn; split; intros H; try discriminate H; eauto.
      destruct H as [k' [H|[]]]; discriminate H.
    + split; [discriminate|]. intros [k' [H|[]]]. discriminate H.
Qed.

(** X13.  The prompt is the template with the two texts put in as they
    are: a fixed head, the resume text, a fixed separator, the job
    description, a fixed tail.  Nothing is escaped, trimmed or cut, so
    both texts occur in the prompt, the resume text first. *)
Theorem prompt_embeds_inputs (resume_text job_description : string) :
  build_analysis_prompt resume_text job_description
  = prompt_head ++ resume_text ++ prompt_middle ++ job_description ++ prompt_tail
  /\ contains resume_text (build_analysis_prompt resume_text job_description)
     = true
  /\ contains job_description
       (build_analysis_prompt resume_text job_description) = true.
Proof.
  rewrite prompt_parts. split; [reflexivity|]. split.
  - apply contains_app.
  - rewrite <- (append_assoc resume_text), <- (append_assoc prompt_head).
    apply contains_app.
Qed.

(** X14.  The prompt does not keep its two texts apart: a resume text that
    holds the separator line of the template gives the same prompt as a
    shorter resume with a longer job description.  The Gemini service gets
    the same request for both, so [analyze_with_gemini] does the same for
    both. *)
Theorem prompt_sections_can_be_forged (a b c : string) :
  build_analysis_prompt (a ++ prompt_middle ++ b) c
  = build_analysis_prompt a (b ++ prompt_middle ++ c) /\
  analyze_with_gemini (a ++ prompt_middle ++ b) c
  = analyze_with_gemini a (b ++ prompt_middle ++ c).
Proof.
  assert (H : build_analysis_prompt (a ++ prompt_middle ++ b) c
              = build_analysis_prompt a (b ++ prompt_middle ++ c))
    by (rewrite !prompt_parts; now rewrite !append_assoc).
  split; [exact H|]. unfold analyze_with_gemini. now rewrite H.
Qed.

(** X15.  Removing the fence does not depend on its label or on blank
    space around the block: for a response that is, between whitespace, an
    opening line of three backquotes and any label, a body, and a last
    line that is not blank, [json.loads] is handed the body. *)
Theorem fence_label_and_margins_ignored (pre label body last post : string) :
  all_space pre = true -> all_space post = true ->
  has_char LF label = false ->
  has_char LF last = false -> all_space last = false ->
  cleaned (pre ++ fence ++ label ++ nl ++ body ++ nl ++ last ++ post) = body.
Proof.
  intros Hpre Hpost Hlabel Hlast Hblank. unfold cleaned.
  replace (pre ++ fence ++ label ++ nl ++ body ++ nl ++ last ++ post)
    with (pre ++ (fence ++ label ++ nl ++ body ++ nl ++ last) ++ post)
    by now rewrite !append_assoc.
  rewrite strip_margins by assumption.
  assert (Hs : strip (fence ++ label ++ nl ++ body ++ nl ++ last)
               = (fence ++ label) ++ nl ++ body ++ nl ++ rstrip last).
  { unfold strip.
    replace (fence ++ label ++ nl ++ body ++ nl ++ last)
      with ((fence ++ label ++ nl ++ body ++ nl) ++ last)
      by now rewrite !append_assoc.
    rewrite rstrip_app by now apply rstrip_not_blank.
    rewrite !append_assoc. unfold fence. cbn [append].
    apply lstrip_cons. reflexivity. }
  rewrite Hs. unfold strip_fence.
  rewrite (append_assoc fence label), startswith_app,
    <- (append_assoc fence label).
  apply (middle_lines (fence ++ label) body (rstrip last)).
  - now rewrite has_char_app, Hlabel.
  - now apply has_char_rstrip.
Qed.

(** X16.  A failure after the Gemini service has answered is reported as a
    failure of the call: when [json.loads] ends with an exception that is
    not a [JSONDecodeError], [analyze_with_gemini] raises status 500 with
    the message of the cause after [Error calling Gemini AI: ]. *)
Theorem late_failure_is_blamed_on_the_call
    (resume_text job_description text cause : string) :
  generate_content "gemini-flash-latest"
    (build_analysis_prompt resume_text job_description) = inr text ->
  json_loads (cleaned text) = inl (OtherException cause) ->
  analyze_with_gemini resume_text job_description
  = ([Print "🤖 Calling Gemini AI...";
      GenerateContent "gemini-flash-latest"
        (build_analysis_prompt resume_text job_description);
      Print ("❌ Gemini API error: " ++ cause)],
     inl (HTTPException 500 ("Error calling Gemini AI: " ++ cause))).
Proof.
  intros Hg Hl. unfold analyze_with_gemini. cbn. now rewrite Hg, Hl.
Qed.

End Service.

(** ** The decoder in the service *)

(** C4 (as amended).  The text of the response is trimmed first.  For every
    JSON text [j], a response that is [j] between an opening and a closing
    fence line gives [json.loads] exactly [j], so it yields the value of
    [j], the same result as the response [j] itself.  After the trimming, a
    response that begins with a fence loses its first and last lines, and
    any other response is parsed as it is. *)
Theorem fence_round_trip
    (generate_content generate_content' : string -> string -> string + string)
    (resume_text jobDescription j : string) (v : value) :
  loads j = inr v ->
  generate_content "gemini-flash-latest"
    (build_analysis_prompt resume_text jobDescription) = inr (fenced j) ->
  generate_content' "gemini-flash-latest"
    (build_analysis_prompt resume_text jobDescription) = inr j ->
  cleaned (fenced j) = j /\
  outcome (analyze_with_gemini generate_content loads
             resume_text jobDescription) = inr v /\
  analyze_with_gemini generate_content loads resume_text jobDescription
  = analyze_with_gemini generate_content' loads resume_text jobDescription /\
  (forall text : string,
     (startswith fence (strip text) = true ->
      cleaned text = join nl (removelast (tl (split LF (strip text))))) /\
     (startswith fence (strip text) = false -> cleaned text = strip text)).
Proof.
  intros Hv Hg Hg'.
  assert (E : analyze_with_gemini generate_content loads
                resume_text jobDescription
              = ([Print "🤖 Calling Gemini AI...";
                  GenerateContent "gemini-flash-latest"
                    (build_analysis_prompt resume_text jobDescription);
                  Print "✅ Analysis completed successfully"], inr v)).
  { apply (gemini_parsed _ _ _ _ (fenced j)); [exact Hg|].
    now rewrite cleaned_fenced. }
  assert (E' : analyze_with_gemini generate_content' loads
                 resume_text jobDescription
               = ([Print "🤖 Calling Gemini AI...";
                   GenerateContent "gemini-flash-latest"
                     (build_analysis_prompt resume_text jobDescription);
                   Print "✅ Analysis completed successfully"], inr v)).
  { apply (gemini_parsed _ _ _ _ j); [exact Hg'|].
    rewrite (cleaned_unfenced j (loads_no_fence j v Hv)).
    now apply loads_strip. }
  split; [apply cleaned_fenced|]. split; [now rewrite E|].
  split; [now rewrite E, E'|].
  intros text. split; [apply cleaned_fence | apply cleaned_unfenced].
Qed.

(** ** The service on sample requests

    The key is [sample_key], the PDF reader returns fixed pages, the DOCX
    reader fails, Gemini answers a fixed text, [json.loads] is the
    reference decoder and [JSONResponse] renders with [strict_render]. *)

(** C1, the claim as it is written, fails: Gemini answers the empty object,
    and the handler returns it with status 200 although it is no analysis
    result. *)
Lemma empty_object_returned_as_success :
  outcome
    (analyze_resume sample_key (reading sample_pages)
       (failing "not a DOCX file") (answering "{}") loads strict_render
       (upload "resume.pdf") sample_job)
  = inr {| status_code := 200; content := VDict [] |} /\
  Shape.AnalysisResult (VDict []) = false.
Proof. split; reflexivity. Qed.

Lemma success_returns_parsed_value_witness :
  status_code {| status_code := 200; content := VDict [] |} = 200%Z /\
  exists resume_text text v,
    answering "{}" "gemini-flash-latest"
      (build_analysis_prompt resume_text sample_job) = inr text /\
    loads (cleaned text) = inr v /\
    VDict [] = v /\
    (Shape.AnalysisResult (VDict []) = true <-> Shape.AnalysisResult v = true).
Proof.
  apply (success_returns_parsed_value sample_key (reading sample_pages)
           (failing "not a DOCX file") (answering "{}") loads strict_render
           (upload "resume.pdf") sample_job
           {| status_code := 200; content := VDict [] |}).
  reflexivity.
Defined.



Lemma missing_key_fails_fast_witness :
  outcome
    (analyze_resume None (reading sample_pages)
       (failing "not a DOCX file") (answering "{}") loads strict_render
       (upload "resume.pdf") sample_job)
  = inl (HTTPException 500
           "Gemini API key not configured. Please add GEMINI_API_KEY to .env file") /\
  gemini_configured (health_check None) = false.
Proof.
  destruct (missing_key_fails_fast None (reading sample_pages)
              (failing "not a DOCX file") (answering "{}") loads strict_render
              (upload "resume.pdf") sample_job eq_refl)
    as [H1 [_ [_ [_ H2]]]].
  split; assumption.
Defined.

(** C4, the claim as it is written, fails: a response that begins with a
    line feed, and so with no fence, is not parsed unchanged.  It is
    trimmed, loses its fence and yields the value inside, where the
    response itself is no JSON. *)
Lemma response_is_trimmed_before_the_fence_test :
  startswith fence (nl ++ fenced "{}") = false /\
  cleaned (nl ++ fenced "{}") = "{}" /\
  outcome
    (analyze_with_gemini (answering (nl ++ fenced "{}")) loads
       sample_text sample_job)
  = inr (VDict []) /\
  loads (nl ++ fenced "{}")
  = inl (JSONDecodeError "Expecting value" (nl ++ fenced "{}") 1).
Proof. repeat split; reflexivity. Qed.

Lemma fence_round_trip_witness :
  outcome
    (analyze_with_gemini (answering (fenced "[1, 2]")) loads
       sample_text sample_job)
  = inr (VList [VInt 1; VInt 2]) /\
  analyze_with_gemini (answering (fenced "[1, 2]")) loads
    sample_text sample_job
  = analyze_with_gemini (answering "[1, 2]") loads sample_text sample_job.
Proof.
  destruct (fence_round_trip (answering (fenced "[1, 2]")) (answering "[1, 2]")
              sample_text sample_job "[1, 2]" (VList [VInt 1; VInt 2])
              eq_refl eq_refl eq_refl) as [_ [H1 [H2 _]]].
  split; assumption.
Defined.


(** C6, the claim as it is written, fails for the handler: its message does
    not carry the extension of the file. *)
Lemma handler_message_omits_the_extension :
  outcome
    (analyze_resume sample_key (reading sample_pages)
       (failing "not a DOCX file") (answering "{}") loads strict_render
       (upload "resume.txt") sample_job)
  = inl (HTTPException 400 "Invalid file type. Allowed: pdf, docx") /\
  file_extension "resume.txt" = "txt" /\
  contains "txt" "Invalid file type. Allowed: pdf, docx" = false.
Proof. repeat split; reflexivity. Qed.

Lemma unsupported_extension_rejected_witness :
  extract_text_from_file (reading sample_pages) (failing "not a DOCX file")
    "resume.txt" []
  = ([], inl (HTTPException 400
                "Unsupported file format: txt. Only PDF and DOCX are supported.")) /\
  analyze_resume sample_key (reading sample_pages)
    (failing "not a DOCX file") (answering "{}") loads strict_render
    (upload "resume.txt") sample_job
  = ([], inl (HTTPException 400 "Invalid file type. Allowed: pdf, docx")).
Proof.
  destruct (unsupported_extension_rejected sample_key (reading sample_pages)
              (failing "not a DOCX file") (answering "{}") loads strict_render
              "resume.txt" eq_refl) as [H1 H2].
  split.
  - destruct (H1 []) as [detail [E [-> _]]]. exact E.
  - apply (H2 (upload "resume.txt") sample_job); reflexivity.
Defined.

(** C7, the claim as it is written, fails when the key is not set: the
    request with a blank job description is answered 500, not 400. *)
Lemma blank_job_without_key_is_500 :
  all_space "   " = true /\
  outcome
    (analyze_resume None (reading sample_pages)
       (failing "not a DOCX file") (answering "{}") loads strict_render
       (upload "resume.pdf") "   ")
  = inl (HTTPException 500
           "Gemini API key not configured. Please add GEMINI_API_KEY to .env file").
Proof. split; reflexivity. Qed.

Lemma blank_job_description_rejected_witness :
  outcome
    (analyze_resume sample_key (reading sample_pages)
       (failing "not a DOCX file") (answering "{}") loads strict_render
       (upload "resume.pdf") "   ")
  = inl (HTTPException 400 "Job description is required") /\
  trace
    (analyze_resume sample_key (reading sample_pages)
       (failing "not a DOCX file") (answering "{}") loads strict_render
       (upload "resume.pdf") "   ")
  = [].
Proof.
  destruct (blank_job_description_rejected sample_key (reading sample_pages)
              (failing "not a DOCX file") (answering "{}") loads strict_render
              (upload "resume.pdf") "   " eq_refl eq_refl) as [H1 [H2 _]].
  split; assumption.
Defined.

Lemma unparsable_response_fails_witness :
  outcome
    (analyze_with_gemini (answering "Sorry, I cannot help.") loads
       sample_text sample_job)
  = inl (HTTPException 500
           "Failed to parse AI response as JSON: Expecting value: line 1 column 1 (char 0)") /\
  outcome
    (analyze_resume sample_key (reading sample_pages)
       (failing "not a DOCX file") (answering "Sorry, I cannot help.") loads strict_render
       (upload "resume.pdf") sample_job)
  = inl (HTTPException 500
           "Failed to parse AI response as JSON: Expecting value: line 1 column 1 (char 0)").
Proof.
  destruct (unparsable_response_fails sample_key (reading sample_pages)
              (failing "not a DOCX file") (answering "Sorry, I cannot help.")
              loads strict_render sample_text sample_job "Sorry, I cannot help."
              "Expecting value" "Sorry, I cannot help." 0 eq_refl eq_refl)
    as [H1 [_ H2]].
  split; [exact H1|].
  apply (H2 (upload "resume.pdf") [] [PdfReader []]); try reflexivity.
  vm_compute. discriminate.
Defined.

(** The opening fence alone: the one line of JSON is dropped and the request
    fails. *)
Example unclosed_fence_loses_the_payload :
  cleaned (fence ++ "json" ++ nl ++ "{}") = "" /\
  outcome
    (analyze_resume sample_key (reading sample_pages)
       (failing "not a DOCX file") (answering (fence ++ "json" ++ nl ++ "{}"))
       loads strict_render (upload "resume.pdf") sample_job)
  = inl (HTTPException 500
           "Failed to parse AI response as JSON: Expecting value: line 1 column 1 (char 0)").
Proof. split; reflexivity. Qed.

(** A file named [PDF], with no point, is read as a PDF. *)
Example file_named_pdf_is_read :
  file_extension "PDF" = "pdf" /\
  In (PdfReader [])
     (trace
        (analyze_resume sample_key (reading sample_pages)
           (failing "not a DOCX file") (answering "{}") loads strict_render
           (upload "PDF") sample_job)).
Proof. split; [reflexivity | vm_compute; tauto]. Qed.

Lemma reader_failure_is_400_witness :
  extract_text_from_docx (failing "not a DOCX file") []
  = ([Document []],
     inl (HTTPException 400 "Error extracting DOCX: not a DOCX file")).
Proof.
  apply (reader_failure_is_400 (failing "not a PDF file")
           (failing "not a DOCX file") [] "not a DOCX file").
  reflexivity.
Defined.

Lemma gemini_failure_is_500_witness :
  outcome
    (analyze_with_gemini (fun _ _ => inl "quota exceeded") loads
       sample_text sample_job)
  = inl (HTTPException 500 "Error calling Gemini AI: quota exceeded").
Proof.
  rewrite (gemini_failure_is_500 (fun _ _ => inl "quota exceeded") loads
             sample_text sample_job "quota exceeded" eq_refl).
  reflexivity.
Defined.

Lemma handler_raises_400_or_500_witness :
  exists detail,
    HTTPException 500 "Internal server error: connection reset"
    = HTTPException 400 detail \/
    HTTPException 500 "Internal server error: connection reset"
    = HTTPException 500 detail.
Proof.
  apply (handler_raises_400_or_500 sample_key (reading sample_pages)
           (failing "not a DOCX file") (answering "{}") loads strict_render
           {| filename := "resume.pdf"; read := inl "connection reset" |}
           sample_job).
  reflexivity.
Defined.

(** The decoder on escapes: a surrogate pair is one character. *)
Example loads_surrogate_pair :
  loads (dq ++ "\ud83d\ude00" ++ dq) = inr (VStr "😀").
Proof. reflexivity. Qed.

(** ** The client *)

Lemma strip_blank (s : string) : negb (truthy (strip s)) = all_space s.
Proof.
  unfold truthy. rewrite negb_involutive.
  destruct (all_space s) eqn:Hs.
  - apply strip_empty_iff in Hs. now rewrite Hs.
  - apply String.eqb_neq. intros H. apply strip_empty_iff in H. congruence.
Qed.

Lemma get_dict_set (k k' : string) (v : value) (d : list (string * value)) :
  get k (dict_set k' v d) = if String.eqb k' k then Some v else get k d.
Proof.
  induction d as [|[k0 v0] d IH]; cbn.
  - reflexivity.
  - destruct (String.eqb k0 k') eqn:E0; cbn.
    + apply String.eqb_eq in E0. subst k0.
      now destruct (String.eqb k' k).
    + destruct (String.eqb k0 k) eqn:E1.
      * apply String.eqb_eq in E1. subst k0. now rewrite String.eqb_sym, E0.
      * exact IH.
Qed.

Section Client.

Variable requests_post : App.Request -> App.failure + App.Response.
Variable type_error : value -> string.
Variable show_results : value -> value -> list string * option string.

Abbreviation show_response := (App.show_response type_error show_results).
Abbreviation analyze := (App.analyze requests_post type_error show_results).
Abbreviation subscript := (App.subscript type_error).

(** What is done with a response sends nothing. *)
Lemma response_sends_nothing (response : App.Response)
    (state : App.session_state) :
  filter App.is_post (fst (show_response response state)) = [].
Proof.
  unfold App.show_response, App.an_error_occurred.
  destruct (App.status_code response =? 200)%Z; [|reflexivity].
  destruct (App.json response) as [e|result]; [reflexivity|].
  destruct (subscript result "atsScore") as [e|ats_score]; [reflexivity|].
  destruct (subscript result "summary") as [e|summary]; [reflexivity|].
  destruct (subscript result "categoryScores") as [e|category_scores];
    [reflexivity|].
  destruct (show_results ats_score summary) as [widgets raised].
  cbn [fst]. rewrite filter_app.
  replace (filter App.is_post (map App.Streamlit widgets)) with (@nil App.call)
    by (induction widgets as [|w ws IH]; [reflexivity | exact IH]).
  now destruct raised.
Qed.

(** What is done with a response that has status 200 and the three keys:
    the values are stored, whatever the widgets do afterwards. *)
Lemma response_stored (response : App.Response) (state : App.session_state)
    (result ats_score summary category_scores : value) :
  App.status_code response = 200%Z ->
  App.json response = inr result ->
  subscript result "atsScore" = inr ats_score ->
  subscript result "summary" = inr summary ->
  subscript result "categoryScores" = inr category_scores ->
  snd (show_response response state)
  = App.store ats_score summary category_scores
      (App.get_or result "strengths" (VList []))
      (App.get_or result "weaknesses" (VList []))
      (App.get_or result "recommendations" (VList [])) state.
Proof.
  intros Hs Hr H1 H2 H3. unfold App.show_response.
  rewrite Hs, Hr, H1, H2, H3. cbn [Z.eqb Pos.eqb].
  now destruct (show_results ats_score summary).
Qed.

(** What is done with a response changes the session only by storing a
    result that has the three keys. *)
Lemma response_state (response : App.Response) (state : App.session_state) :
  snd (show_response response state) = state \/
  exists result ats_score summary category_scores,
    App.status_code response = 200%Z /\
    App.json response = inr result /\
    subscript result "atsScore" = inr ats_score /\
    subscript result "summary" = inr summary /\
    subscript result "categoryScores" = inr category_scores /\
    snd (show_response response state)
    = App.store ats_score summary category_scores
        (App.get_or result "strengths" (VList []))
        (App.get_or result "weaknesses" (VList []))
        (App.get_or result "recommendations" (VList [])) state.
Proof.
  unfold App.show_response.
  destruct (App.status_code response =? 200)%Z eqn:Hs; [|now left].
  apply Z.eqb_eq in Hs.
  destruct (App.json response) as [e|result]; [now left|].
  destruct (subscript result "atsScore") as [e|ats_score] eqn:H1; [now left|].
  destruct (subscript result "summary") as [e|summary] eqn:H2; [now left|].
  destruct (subscript result "categoryScores") as [e|category_scores] eqn:H3;
    [now left|].
  right. exists result, ats_score, summary, category_scores.
  destruct (show_results ats_score summary) as [widgets raised].
  repeat split; assumption || reflexivity.
Qed.

(** The press of the button with both inputs given. *)
Lemma analyze_sends (state : App.session_state) (resume_file : App.UploadedFile)
    (job_description : string) :
  all_space job_description = false ->
  analyze state (Some resume_file) job_description
  = let request := App.request_of resume_file job_description in
    let after :=
      match requests_post request with
      | inr response => show_response response state
      | inl App.ConnectionError =>
          ([App.StError "❌ Cannot connect to backend server. Make sure Python backend is running on port 8081"],
           state)
      | inl App.Timeout =>
          ([App.StError "❌ Request timeout. The analysis is taking too long."],
           state)
      | inl (App.Exception e) => ([App.an_error_occurred e], state)
      end in
    (App.StSpinner "Analyzing resume with AI..." :: App.RequestsPost request
       :: fst after, snd after).
Proof.
  intros Hj. unfold App.analyze. rewrite strip_blank, Hj. cbv zeta.
  destruct (requests_post _) as [[| |e]|response]; try reflexivity.
  now destruct (show_response response state).
Qed.

(** The press of the button with a file and a blank job description. *)
Lemma analyze_blank (state : App.session_state) (resume_file : App.UploadedFile)
    (job_description : string) :
  all_space job_description = true ->
  analyze state (Some resume_file) job_description
  = ([App.StError "Please provide a job description"], state).
Proof. intros H. unfold App.analyze. now rewrite strip_blank, H. Qed.

(** X17.  The client sends nothing unless it has a file and a job
    description that is not blank: without a file it shows the message
    that asks for one (whatever the job description is), with a file and a
    blank job description the message that asks for a description; in
    both cases this is all it does, and the session is left as it was. *)
Theorem ui_sends_nothing_without_inputs (state : App.session_state)
    (resume_file : option App.UploadedFile) (job_description : string) :
  resume_file = None \/ all_space job_description = true ->
  analyze state resume_file job_description
  = ([App.StError
        match resume_file with
        | None => "Please upload a resume file"
        | Some _ => "Please provide a job description"
        end], state).
Proof.
  intros H. unfold App.analyze. destruct resume_file as [file|].
  - destruct H as [H|H]; [discriminate H|]. now rewrite strip_blank, H.
  - reflexivity.
Qed.


(** X18.  A request of the client is never refused by the service for its
    job description.  When the client sends a request, it sends one, to
    the analyze route, with the name, the bytes and the type of the
    upload and the job description as typed; that text is not blank, so
    the handler of the service, whatever its key and its libraries, does
    not answer it with the error for a missing job description. *)
Theorem ui_request_passes_job_check (state : App.session_state)
    (resume_file : option App.UploadedFile) (job_description : string)
    (request : App.Request) :
  In (App.RequestsPost request)
     (fst (analyze state resume_file job_description)) ->
  (exists file,
     resume_file = Some file /\
     request
     = {| App.url := "http://localhost:8081/api/resume/analyze";
          App.resumeFile := (App.name file, App.getvalue file, App.type file);
          App.jobDescription := job_description;
          App.timeout := 60 |}) /\
  List.length
    (filter App.is_post (fst (analyze state resume_file job_description)))
  = 1%nat /\
  forall (GEMINI_API_KEY : option string)
         (pdf_pages docx_paragraphs : bytes -> string + list string)
         (generate_content : string -> string -> string + string)
         (json_loads : string -> exn + value)
         (render_error : value -> option string) (f : UploadFile),
    outcome (analyze_resume GEMINI_API_KEY pdf_pages docx_paragraphs
               generate_content json_loads render_error f
               (App.jobDescription request))
    <> inl (HTTPException 400 "Job description is required").
Proof.
  intros Hin.
  destruct resume_file as [file|];
    [|cbn in Hin; destruct Hin as [H|[]]; discriminate H].
  destruct (all_space job_description) eqn:Hj.
  { rewrite analyze_blank in Hin by exact Hj.
    cbn in Hin. destruct Hin as [H|[]]. discriminate H. }
  rewrite analyze_sends in Hin |- * by exact Hj. cbv zeta in Hin |- *.
  cbn [fst] in Hin |- *.
  assert (Hnone :
    filter App.is_post
      (fst match requests_post (App.request_of file job_description) with
           | inl App.ConnectionError =>
               ([App.StError "❌ Cannot connect to backend server. Make sure Python backend is running on port 8081"],
                state)
           | inl App.Timeout =>
               ([App.StError "❌ Request timeout. The analysis is taking too long."],
                state)
           | inl (App.Exception e) => ([App.an_error_occurred e], state)
           | inr response => show_response response state
           end) = []).
  { destruct (requests_post _) as [[| |e]|response]; try reflexivity.
    apply response_sends_nothing. }
  assert (Hreq : request = App.request_of file job_description).
  { destruct Hin as [H|[H|H]]; [discriminate H | now injection H|].
    assert (Hf : In (App.RequestsPost request)
                   (filter App.is_post
                      (fst match requests_post
                                   (App.request_of file job_description) with
                           | inl App.ConnectionError =>
                               ([App.StError "❌ Cannot connect to backend server. Make sure Python backend is running on port 8081"],
                                state)
                           | inl App.Timeout =>
                               ([App.StError "❌ Request timeout. The analysis is taking too long."],
                                state)
                           | inl (App.Exception e) =>
                               ([App.an_error_occurred e], state)
                           | inr response => show_response response state
                           end)))
      by (apply filter_In; split; [exact H | reflexivity]).
    rewrite Hnone in Hf. destruct Hf. }
  subst request. split; [|split].
  - exists file. split; reflexivity.
  - cbn [filter App.is_post]. now rewrite Hnone.
  - intros GEMINI_API_KEY pdf_pages docx_paragraphs generate_content json_loads
      render_error f H.
    apply handler_error_cases in H. cbn [App.jobDescription App.request_of] in H.
    destruct H as [[_ H]|[[H _]|[H|[[c H]|[[c H]|[[c H]|[H|[[c H]|[c H]]]]]]]]];
      try discriminate H.
    congruence.
Qed.

(** X19.  The session after the press of the button.  When the service
    answers with status 200 and a JSON value that has the keys [atsScore],
    [summary] and [categoryScores], their values are stored (with the empty
    list for each of [strengths], [weaknesses] and [recommendations] that
    the value lacks), also when a widget that shows them raises
    afterwards; the job description holds no whitespace character beyond
    ASCII, so that the test for a blank one is that of Python.  In every
    other case (no file, a blank job description, a
    request that fails, another status, a body that is no JSON, a missing
    key) the session is left as it was, so the results of an earlier
    analysis stay on the page. *)
Theorem failed_analysis_keeps_session (state : App.session_state)
    (resume_file : option App.UploadedFile) (job_description : string) :
  (forall (file : App.UploadedFile) (response : App.Response)
          (result ats_score summary category_scores : value),
     resume_file = Some file ->
     all_space job_description = false ->
     has_wide_space job_description = false ->
     requests_post (App.request_of file job_description) = inr response ->
     App.status_code response = 200%Z ->
     App.json response = inr result ->
     subscript result "atsScore" = inr ats_score ->
     subscript result "summary" = inr summary ->
     subscript result "categoryScores" = inr category_scores ->
     snd (analyze state resume_file job_description)
     = App.store ats_score summary category_scores
         (App.get_or result "strengths" (VList []))
         (App.get_or result "weaknesses" (VList []))
         (App.get_or result "recommendations" (VList [])) state) /\
  ((forall (file : App.UploadedFile) (response : App.Response)
           (result ats_score summary category_scores : value),
      ~ (resume_file = Some file /\
         all_space job_description = false /\
         requests_post (App.request_of file job_description) = inr response /\
         App.status_code response = 200%Z /\
         App.json response = inr result /\
         subscript result "atsScore" = inr ats_score /\
         subscript result "summary" = inr summary /\
         subscript result "categoryScores" = inr category_scores)) ->
   snd (analyze state resume_file job_description) = state).
Proof.
  split.
  - intros file response result a s c -> Hj _ Hp Hs Hr H1 H2 H3.
    rewrite analyze_sends by exact Hj. cbv zeta. cbn [snd]. rewrite Hp.
    now apply response_stored.
  - intros Hno. destruct resume_file as [file|]; [|reflexivity].
    destruct (all_space job_description) eqn:Hj;
      [now rewrite analyze_blank by exact Hj|].
    rewrite analyze_sends by exact Hj. cbv zeta. cbn [snd].
    destruct (requests_post (App.request_of file job_description))
      as [[| |e]|response] eqn:Hp; try reflexivity.
    destruct (response_state response state)
      as [H|[result [a [s [c [H1 [H2 [H3 [H4 [H5 H6]]]]]]]]]]; [exact H|].
    exfalso. apply (Hno file response result a s c). repeat split; assumption.
Qed.

(** X20.  A successful answer that lacks a required key is reported by the
    name of the key: when the service answers with status 200 and a JSON
    object, the first of [atsScore], [summary] and [categoryScores] that
    the object lacks is shown in quotes after [An error occurred], nothing
    else is drawn, and the session is left as it was. *)
Theorem missing_key_is_reported (state : App.session_state)
    (resume_file : App.UploadedFile) (job_description : string)
    (response : App.Response) (pairs : list (string * value)) (key : string) :
  all_space job_description = false ->
  requests_post (App.request_of resume_file job_description) = inr response ->
  App.status_code response = 200%Z ->
  App.json response = inr (VDict pairs) ->
  find (fun k => match get k pairs with None => true | Some _ => false end)
    ["atsScore"; "summary"; "categoryScores"] = Some key ->
  analyze state (Some resume_file) job_description
  = ([App.StSpinner "Analyzing resume with AI...";
      App.RequestsPost (App.request_of resume_file job_description);
      App.StError ("❌ An error occurred: '" ++ key ++ "'")], state).
Proof.
  intros Hj Hp Hs Hr Hk.
  rewrite analyze_sends by exact Hj. cbv zeta. rewrite Hp.
  unfold App.show_response, App.subscript, App.an_error_occurred.
  rewrite Hs, Hr. cbn [Z.eqb Pos.eqb]. cbn [find] in Hk.
  destruct (get "atsScore" pairs);
    [|injection Hk as <-; reflexivity].
  destruct (get "summary" pairs);
    [|injection Hk as <-; reflexivity].
  destruct (get "categoryScores" pairs);
    [discriminate Hk | injection Hk as <-; reflexivity].
Qed.

End Client.

(** X21.  What an analysis stores can be read back: after the seven
    assignments the session holds [True] under [analysis_done] and each of
    the six values under the name the right panel reads, whatever the
    session held before; every other name keeps its value. *)
Theorem stored_results_are_read_back
    (ats_score summary category_scores strengths weaknesses recommendations
       : value) (state : App.session_state) :
  let state' :=
    App.store ats_score summary category_scores strengths weaknesses
      recommendations state in
  get "analysis_done" state' = Some (VBool true) /\
  get "ats_score" state' = Some ats_score /\
  get "summary" state' = Some summary /\
  get "category_scores" state' = Some category_scores /\
  get "strengths" state' = Some strengths /\
  get "weaknesses" state' = Some weaknesses /\
  get "recommendations" state' = Some recommendations /\
  forall k : string,
    ~ In k ["analysis_done"; "ats_score"; "summary"; "category_scores";
            "strengths"; "weaknesses"; "recommendations"] ->
    get k state' = get k state.
Proof.
  cbv zeta. unfold App.store.
  repeat split; rewrite ?get_dict_set; try reflexivity.
  intros k Hk. rewrite !get_dict_set.
  repeat match goal with
         | |- context [String.eqb ?a k] =>
             destruct (String.eqb a k) eqn:E;
             [apply String.eqb_eq in E; subst k; exfalso; apply Hk; cbn; tauto
             |clear E]
         end.
  reflexivity.
Qed.

(** ** The further properties on concrete runs *)

Lemma extracted_text_is_joined_pages_witness :
  extract_text_from_pdf (reading sample_pages) []
  = ([PdfReader []], inr (strip (join nl sample_pages))) /\
  extract_text_from_docx (reading []) [] = ([Document []], inr "").
Proof.
  split.
  - exact (proj1 (extracted_text_is_joined_pages (reading sample_pages)
                    (reading []) [] sample_pages) eq_refl).
  - exact (proj2 (extracted_text_is_joined_pages (reading sample_pages)
                    (reading []) [] []) eq_refl).
Defined.

Lemma extracted_text_is_trimmed_witness :
  strip sample_text = sample_text /\ len (strip sample_text) = len sample_text.
Proof.
  apply (extracted_text_is_trimmed (reading sample_pages)
           (failing "not a DOCX file") "resume.pdf" [] sample_text).
  reflexivity.
Defined.

Lemma blank_document_is_rejected_witness :
  analyze_resume sample_key (reading [" "; ""]) (failing "not a DOCX file")
    (answering "{}") loads strict_render (upload "scan.pdf") sample_job
  = (events_before_check (upload "scan.pdf") [opened "scan.pdf" []],
     inl (HTTPException 400
            "Could not extract enough text from resume. Please ensure the file is not corrupted or password-protected.")) /\
  count is_ai_call
    (trace
       (analyze_resume sample_key (reading [" "; ""])
          (failing "not a DOCX file") (answering "{}") loads strict_render
          (upload "scan.pdf") sample_job))
  = 0%nat.
Proof.
  apply (blank_document_is_rejected sample_key (reading [" "; ""])
           (failing "not a DOCX file") (answering "{}") loads strict_render
           (upload "scan.pdf") sample_job [] [" "; ""]
           eq_refl eq_refl eq_refl eq_refl).
  left. split; reflexivity.
Defined.

Lemma extension_case_is_ignored_witness :
  file_extension (lower "CV.Final.PDF") = file_extension "CV.Final.PDF" /\
  outcome
    (analyze_resume sample_key (reading sample_pages)
       (failing "not a DOCX file") (answering "{}") loads strict_render
       {| filename := "CV.Final.PDF"; read := inr [] |} sample_job)
  = outcome
      (analyze_resume sample_key (reading sample_pages)
         (failing "not a DOCX file") (answering "{}") loads strict_render
         {| filename := "resume.pdf"; read := inr [] |} sample_job).
Proof.
  destruct (extension_case_is_ignored sample_key (reading sample_pages)
              (failing "not a DOCX file") (answering "{}") loads strict_render) as [H1 H2].
  split; [apply H1 | apply H2; reflexivity].
Defined.

Lemma handler_error_catalogue_witness :
  HTTPException 400 "Invalid file type. Allowed: pdf, docx"
  <> HTTPException 400 "Resume file is required" /\
  startswith "Unsupported file format" "Invalid file type. Allowed: pdf, docx"
  = false.
Proof.
  destruct (handler_error_catalogue sample_key (reading sample_pages)
              (failing "not a DOCX file") (answering "{}") loads strict_render
              (upload "resume.txt") sample_job
              (HTTPException 400 "Invalid file type. Allowed: pdf, docx")
              eq_refl) as [_ [H1 H2]].
  split; [exact H1 | exact (H2 400%Z _ eq_refl)].
Defined.

Lemma extraction_error_passes_through_witness :
  outcome
    (analyze_resume sample_key (failing "EOF marker not found")
       (failing "not a DOCX file") (answering "{}") loads strict_render
       (upload "resume.pdf") sample_job)
  = inl (HTTPException 400 "Error extracting PDF: EOF marker not found") /\
  calls
    (trace
       (analyze_resume sample_key (failing "EOF marker not found")
          (failing "not a DOCX file") (answering "{}") loads strict_render
          (upload "resume.pdf") sample_job))
  = [ReadFile "resume.pdf"; opened "resume.pdf" []].
Proof.
  destruct (extraction_error_passes_through sample_key
              (failing "EOF marker not found") (failing "not a DOCX file")
              (answering "{}") loads strict_render (upload "resume.pdf")
              sample_job []
              (HTTPException 400 "Error extracting PDF: EOF marker not found")
              eq_refl eq_refl eq_refl eq_refl eq_refl) as [H1 [_ H2]].
  split; assumption.
Defined.

Lemma upload_read_failure_is_500_witness :
  outcome
    (analyze_resume sample_key (reading sample_pages)
       (failing "not a DOCX file") (answering "{}") loads strict_render
       {| filename := "resume.pdf"; read := inl "connection reset" |}
       sample_job)
  = inl (HTTPException 500 "Internal server error: connection reset").
Proof.
  destruct (upload_read_failure_is_500 sample_key (reading sample_pages)
              (failing "not a DOCX file") (answering "{}") loads strict_render
              {| filename := "resume.pdf"; read := inl "connection reset" |}
              sample_job "connection reset" eq_refl eq_refl eq_refl eq_refl)
    as [H _].
  now rewrite H.
Defined.

Lemma gemini_needs_configuration_witness :
  exists api_key,
    sample_key = Some api_key /\ api_key <> "" /\
    In (Configure api_key) (configure_gemini sample_key).
Proof.
  apply (proj1 (gemini_needs_configuration sample_key (reading sample_pages)
                  (failing "not a DOCX file") (answering "{}") loads strict_render)
           (upload "resume.pdf") sample_job).
  vm_compute. discriminate.
Defined.

Lemma fence_label_and_margins_ignored_witness :
  cleaned (" " ++ fence ++ "JSON" ++ nl ++ "{}" ++ nl ++ fence ++ nl) = "{}".
Proof.
  apply (fence_label_and_margins_ignored " " "JSON" "{}" fence nl);
    reflexivity.
Defined.

Lemma late_failure_is_blamed_on_the_call_witness :
  outcome
    (analyze_with_gemini (answering "[[[[")
       (fun _ => inl (OtherException "maximum recursion depth exceeded"))
       sample_text sample_job)
  = inl (HTTPException 500
           "Error calling Gemini AI: maximum recursion depth exceeded").
Proof.
  rewrite (late_failure_is_blamed_on_the_call (answering "[[[[")
             (fun _ => inl (OtherException "maximum recursion depth exceeded"))
             sample_text sample_job "[[[[" "maximum recursion depth exceeded"
             eq_refl eq_refl).
  reflexivity.
Defined.

Lemma ui_sends_nothing_without_inputs_witness :
  App.analyze App.unreachable App.not_subscriptable App.drawing_nothing []
    (Some App.sample_file) "   "
  = ([App.StError "Please provide a job description"], []).
Proof.
  apply (ui_sends_nothing_without_inputs App.unreachable App.not_subscriptable
           App.drawing_nothing [] (Some App.sample_file) "   ").
  right. reflexivity.
Defined.

Lemma ui_request_passes_job_check_witness :
  List.length
    (filter App.is_post
       (fst (App.analyze App.unreachable App.not_subscriptable
               App.drawing_nothing [] (Some App.sample_file) sample_job)))
  = 1%nat.
Proof.
  apply (ui_request_passes_job_check App.unreachable App.not_subscriptable
           App.drawing_nothing [] (Some App.sample_file) sample_job
           (App.request_of App.sample_file sample_job)).
  right. left. reflexivity.
Defined.

Lemma missing_key_is_reported_witness :
  App.analyze (App.answering App.empty_success) App.not_subscriptable
    App.drawing_nothing [] (Some App.sample_file) sample_job
  = ([App.StSpinner "Analyzing resume with AI...";
      App.RequestsPost (App.request_of App.sample_file sample_job);
      App.StError "❌ An error occurred: 'atsScore'"], []).
Proof.
  apply (missing_key_is_reported (App.answering App.empty_success)
           App.not_subscriptable App.drawing_nothing [] App.sample_file
           sample_job App.empty_success [] "atsScore");
    reflexivity.
Defined.

Lemma failed_analysis_keeps_session_witness :
  snd (App.analyze (App.answering App.sample_success) App.not_subscriptable
         App.raising [("analysis_done", VBool false)] (Some App.sample_file)
         sample_job)
  = [("analysis_done", VBool true); ("ats_score", VInt 72);
     ("summary", VStr "A good match."); ("category_scores", VDict []);
     ("strengths", VList []); ("weaknesses", VList []);
     ("recommendations", VList [])] /\
  snd (App.analyze App.unreachable App.not_subscriptable App.raising
         [("analysis_done", VBool true)] (Some App.sample_file) sample_job)
  = [("analysis_done", VBool true)].
Proof.
  split.
  - rewrite (proj1 (failed_analysis_keeps_session
                      (App.answering App.sample_success) App.not_subscriptable
                      App.raising [("analysis_done", VBool false)]
                      (Some App.sample_file) sample_job)
               App.sample_file App.sample_success
               (VDict [("atsScore", VInt 72);
                       ("summary", VStr "A good match.");
                       ("categoryScores", VDict [])])
               (VInt 72) (VStr "A good match.") (VDict [])
               eq_refl eq_refl eq_refl eq_refl eq_refl eq_refl eq_refl eq_refl
               eq_refl).
    reflexivity.
  - apply (proj2 (failed_analysis_keeps_session App.unreachable
                    App.not_subscriptable App.raising
                    [("analysis_done", VBool true)] (Some App.sample_file)
                    sample_job)).
    intros file response result a s c [_ [_ [H _]]]. discriminate H.
Defined.
